(** * OpenShiftOAuthenticator: group policy, user lookup, token retry

    A shallow embedding of [oauthenticator/openshift.py].  Python values are
    an inductive type, dicts are [gmap string _], sets are [gset _], and the
    coroutines of the class are functions in a state-and-exception monad
    whose state holds the one mutable attribute of the authenticator and the
    record of what it did to the outside (requests, log lines, stopped
    users). *)

From Stdlib Require Import ZArith String Ascii List.
From stdpp Require Import base option countable gmap strings list fin_maps fin_sets.

(** ** Python values *)

(** What [json.loads] hands back (floats left out), which is also enough for
    the dicts the authenticator builds itself.  A str is a sequence of
    characters, an [ascii] each; a dict is keyed by str, as JSON objects
    are. *)
#[warnings="-register-all"] Inductive pyval : Type :=
| PNone
| PBool (b : bool)
| PInt (z : Z)
| PStr (s : string)
| PList (l : list pyval)
| PDict (d : gmap string pyval).

(** What a [set] can hold of those.  [True == 1] and [False == 0] hash alike
    in Python, so a set never holds both: bools are stored as their int. *)
Inductive hashable : Type :=
| HNone
| HInt (z : Z)
| HStr (s : string).

Global Instance hashable_eq_dec : EqDecision hashable.
Proof. solve_decision. Defined.

Definition hashable_enc (h : hashable) : option (Z + string) :=
  match h with
  | HNone => None
  | HInt z => Some (inl z)
  | HStr s => Some (inr s)
  end.

Definition hashable_dec (o : option (Z + string)) : hashable :=
  match o with
  | None => HNone
  | Some (inl z) => HInt z
  | Some (inr s) => HStr s
  end.

Global Instance hashable_countable : Countable hashable.
Proof.
  apply (inj_countable' hashable_enc hashable_dec).
  intros []; reflexivity.
Defined.

(** [bool(x)] for a set element. *)
Definition truthy (h : hashable) : bool :=
  match h with
  | HNone => false
  | HInt z => negb (Z.eqb z 0)
  | HStr s => negb (String.eqb s "")
  end.

(** Exceptions the code can see. *)
Inductive exn : Type :=
| CurlError
| HTTPError (code : Z)
| KeyError (key : string)
| TypeError
| MissingArgumentError (name : string)
| UnboundLocalError (name : string)
| OtherError (name : string).

Inductive result (A : Type) : Type :=
| Ok (a : A)
| Raise (e : exn).
Arguments Ok {A} a.
Arguments Raise {A} e.

Global Instance result_ret : MRet result := @Ok.
Global Instance result_bind : MBind result := λ A B k r,
  match r with
  | Ok a => k a
  | Raise e => Raise e
  end.

(** [v[k]] for a string key [k]: only a dict takes one. *)
Definition getitem (v : pyval) (k : string) : result pyval :=
  match v with
  | PDict d =>
      match d !! k with
      | Some x => Ok x
      | None => Raise (KeyError k)
      end
  | _ => Raise TypeError
  end.

(** [hash(v)] succeeds on the scalars only. *)
Definition to_hashable (v : pyval) : result hashable :=
  match v with
  | PNone => Ok HNone
  | PBool b => Ok (HInt (Z.b2z b))
  | PInt z => Ok (HInt z)
  | PStr s => Ok (HStr s)
  | PList _ | PDict _ => Raise TypeError
  end.

Fixpoint set_of_list (l : list pyval) : result (gset hashable) :=
  match l with
  | [] => Ok ∅
  | v :: l' =>
      match to_hashable v with
      | Raise e => Raise e
      | Ok h =>
          match set_of_list l' with
          | Raise e => Raise e
          | Ok s => Ok ({[ h ]} ∪ s)
          end
      end
  end.

Fixpoint chars (s : string) : gset hashable :=
  match s with
  | EmptyString => ∅
  | String c s' => {[ HStr (String c EmptyString) ]} ∪ chars s'
  end.

(** [set(v)]: the elements of a list, the characters of a str, the keys of a
    dict; the other values are not iterable. *)
Definition py_set (v : pyval) : result (gset hashable) :=
  match v with
  | PList l => set_of_list l
  | PStr s => Ok (chars s)
  | PDict d => Ok (set_map HStr (dom d))
  | PNone | PBool _ | PInt _ => Raise TypeError
  end.

(** [bool(s)] for a set: non-empty. *)
Definition set_bool (s : gset hashable) : bool :=
  negb (bool_decide (s = ∅)).

(** ** Requests, configuration, state *)

(** A string with values formatted into it ([str.format], [%], f-strings);
    the formatted values are kept as they are. *)
Inductive frag : Type :=
| Lit (s : string)
| Fmt (v : pyval).

Definition text : Type := list frag.

(** A URL: the base, and the query parameters appended to it. *)
Record Url : Type := mkUrl {
  url_base : string;
  url_params : list (string * string)
}.

(** tornado's [url_concat(url, params)], the parameters kept apart. *)
Definition url_concat (url : string) (params : list (string * string)) : Url :=
  mkUrl url params.

Record HTTPRequest : Type := mkHTTPRequest {
  req_url : Url;
  req_method : string;
  req_validate_cert : bool;
  req_ca_certs : string;
  req_headers : list (string * text);
  req_body : option string
}.

(** The configured traits of the authenticator (read-only after startup). *)
Record OpenShiftOAuthenticator : Type := mkAuthenticator {
  client_id : string;
  client_secret : string;
  token_url : string;
  userdata_url : string;
  validate_server_cert : bool;
  ca_certs : string;
  system_ca_certs : string;
  allowed_groups : gset hashable;
  admin_groups : gset hashable
}.

(** The hub's user object, as far as [refresh_user] touches it. *)
Record User : Type := mkUser {
  user_name : string;
  get_auth_state : pyval
}.

(** The request handler, as far as [authenticate] touches it. *)
Record Handler : Type := mkHandler {
  get_argument : string → option string
}.

(** What the authenticator does to the outside, in order. *)
Inductive event : Type :=
| EvFetch (req : HTTPRequest)
| EvInfo (msg : text)
| EvWarning (msg : text)
| EvStop (u : User).

(** The one mutable attribute, and the events so far. *)
Record state : Type := mkState {
  use_ca_certs_for_token_request : bool;
  trace : list event
}.

(** The network: what [self.fetch(req)] gives, after the events so far. *)
Definition World : Type := list event → HTTPRequest → result pyval.

(** ** The monad of the coroutines *)

Definition M (A : Type) : Type := state → result A * state.

Definition ret {A} (a : A) : M A := λ s, (Ok a, s).

Definition raise {A} (e : exn) : M A := λ s, (Raise e, s).

Definition bind {A B} (m : M A) (k : A → M B) : M B :=
  λ s, match m s with
       | (Ok a, s') => k a s'
       | (Raise e, s') => (Raise e, s')
       end.

Global Instance M_ret : MRet M := @ret.
Global Instance M_bind : MBind M := λ A B k m, bind m k.

Definition lift {A} (r : result A) : M A := λ s, (r, s).

(** [try: m  except <h matches>: ...]; a handler that gives [None] does not
    match, and the exception goes on. *)
Definition try_except {A} (m : M A) (h : exn → option (M A)) : M A :=
  λ s, match m s with
       | (Ok a, s') => (Ok a, s')
       | (Raise e, s') =>
           match h e with
           | Some k => k s'
           | None => (Raise e, s')
           end
       end.

Definition emit (ev : event) : M unit :=
  λ s, (Ok tt, mkState (use_ca_certs_for_token_request s) (trace s ++ [ev])).

Definition get_flag : M bool :=
  λ s, (Ok (use_ca_certs_for_token_request s), s).

Definition set_flag (b : bool) : M unit :=
  λ s, (Ok tt, mkState b (trace s)).

Definition fetch (w : World) (req : HTTPRequest) : M pyval :=
  λ s, (w (trace s) req,
        mkState (use_ca_certs_for_token_request s) (trace s ++ [EvFetch req])).

(** tornado: [CurlError] is an [HTTPError] (with code 599). *)
Definition is_HTTPError (e : exn) : bool :=
  match e with
  | CurlError | HTTPError _ => true
  | _ => false
  end.

Definition is_CurlError (e : exn) : bool :=
  match e with
  | CurlError => true
  | _ => false
  end.

Definition exn_code (e : exn) : Z :=
  match e with
  | HTTPError c => c
  | _ => 599
  end.

(** ** The class body *)

(** What a name of the class body is bound to while the body runs. *)
Inductive class_attr : Type :=
| TraitDescriptor (kind : string) (config : bool)
| ClassStr (s : string).

(** [bool(x)] there: a trait descriptor defines neither [__bool__] nor
    [__len__], so it is true like any plain object. *)
Definition class_attr_bool (x : class_attr) : bool :=
  match x with
  | TraitDescriptor _ _ => true
  | ClassStr s => negb (String.eqb s "")
  end.

(** [ca_certs = Unicode(config=True)] *)
Definition ca_certs_attr : class_attr := TraitDescriptor "Unicode" true.

(** [use_ca_certs_for_token_request = True if ca_certs else False] *)
Definition use_ca_certs_for_token_request_attr : bool :=
  if class_attr_bool ca_certs_attr then true else false.

(** A freshly constructed authenticator: the flag is read from the class,
    nothing has happened yet. *)
Definition fresh : state := mkState use_ca_certs_for_token_request_attr [].

(** ** The methods *)

(** [any(user_groups.intersection(allowed_groups))] *)
Definition user_in_groups (user_groups allowed_groups : gset hashable) : bool :=
  existsb truthy (elements (user_groups ∩ allowed_groups)).

(** Reading a local variable that may not have been assigned. *)
Definition read_local {A} (name : string) (x : option A) : M A :=
  match x with
  | Some a => ret a
  | None => raise (UnboundLocalError name)
  end.

Definition dict_getitem (d : gmap string pyval) (k : string) : result pyval :=
  getitem (PDict d) k.

(** [not user_info], for [None] or a dict. *)
Definition not_user_info (user_info : option (gmap string pyval)) : bool :=
  match user_info with
  | None => true
  | Some d => bool_decide (d = ∅)
  end.

(** [f"username:{username} User not in any of the allowed/admin groups"] *)
Definition denial_message (username : pyval) : text :=
  [Lit "username:"; Fmt username;
   Lit " User not in any of the allowed/admin groups"].

(** [set(user_info['auth_state']['openshift_user']['groups'])] *)
Definition user_groups_of (user_info : gmap string pyval)
  : result (gset hashable) :=
  auth_state ← dict_getitem user_info "auth_state";
  openshift_user ← getitem auth_state "openshift_user";
  groups ← getitem openshift_user "groups";
  py_set groups.

(** [ocp_user['metadata']['name']] *)
Definition username_of (ocp_user : pyval) : result pyval :=
  metadata ← getitem ocp_user "metadata";
  getitem metadata "name".

(** [{'name': username, 'auth_state': {'access_token': access_token,
    'openshift_user': ocp_user}}] *)
Definition new_user_info (username access_token ocp_user : pyval)
  : gmap string pyval :=
  <["auth_state" := PDict (<["openshift_user" := ocp_user]>
                            {["access_token" := access_token]})]>
    {["name" := username]}.

Section Authenticator.

Variable w : World.
Variable self : OpenShiftOAuthenticator.

(** The request [token_request(url)] builds, given what
    [self.use_ca_certs_for_token_request] is when it is called. *)
Definition token_request_with (flag : bool) (url : Url) : HTTPRequest :=
  {| req_url := url;
     req_method := "POST";
     req_validate_cert := validate_server_cert self;
     req_ca_certs := if flag then ca_certs self else system_ca_certs self;
     req_headers := [("Accept", [Lit "application/json"])];
     req_body := Some "" |}.

Definition token_request (url : Url) : M HTTPRequest :=
  flag ← get_flag;
  ret (token_request_with flag url).

(** [is_admin] is assigned only under [if self.admin_groups:]; it is an
    [option] here, and reading it goes through [read_local]. *)
Definition _add_openshift_group_info (user_info : gmap string pyval)
  : M (option (gmap string pyval)) :=
  user_groups ← lift (user_groups_of user_info);
  username ← lift (dict_getitem user_info "name");
  is_admin ← (if set_bool (admin_groups self)
              then ret (Some (user_in_groups user_groups (admin_groups self)))
              else ret None);
  let user_in_allowed_group :=
    user_in_groups user_groups (allowed_groups self) in
  cond ← (if set_bool (admin_groups self)
          then a ← read_local "is_admin" is_admin;
               ret (a || user_in_allowed_group)
          else ret false);
  if cond : bool then
    a ← read_local "is_admin" is_admin;
    ret (Some (<["admin" := PBool a]> user_info))
  else if user_in_allowed_group then
    ret (Some user_info)
  else
    emit (EvWarning (denial_message username));;
    ret None.

(** The message of the retry, given the flag before it is flipped. *)
Definition retry_message (flag : bool) : text :=
  let certs := if flag then "system ca certs" else "ca certs" in
  [Lit ("Retrying oauth token request with " +:+ certs)].

Definition userdata_request (access_token : pyval) : HTTPRequest :=
  {| req_url := mkUrl (userdata_url self) [];
     req_method := "GET";
     req_validate_cert := validate_server_cert self;
     req_ca_certs := ca_certs self;
     req_headers := [("Accept", [Lit "application/json"]);
                     ("User-Agent", [Lit "JupyterHub"]);
                     ("Authorization", [Lit "Bearer "; Fmt access_token])];
     req_body := None |}.

(** The [try] block either leaves the function with [None] ([inl]) or goes
    on with the fetched user ([inr]). *)
Definition _get_openshift_user_info (access_token : pyval)
  : M (option (gmap string pyval)) :=
  let req := userdata_request access_token in
  r ← @try_except (unit + pyval)
        (ocp_user ← fetch w req; ret (inr ocp_user))
        (λ ex, if is_HTTPError ex
               then Some (if Z.eqb (exn_code ex) 401
                          then ret (inl tt)
                          else raise ex)
               else None);
  match r with
  | inl _ => ret None
  | inr ocp_user =>
      username ← lift (username_of ocp_user);
      let user_info := new_user_info username access_token ocp_user in
      if set_bool (allowed_groups self) || set_bool (admin_groups self)
      then _add_openshift_group_info user_info
      else ret (Some user_info)
  end.

Definition token_url_with (code : string) : Url :=
  url_concat (token_url self)
    [("client_id", client_id self);
     ("client_secret", client_secret self);
     ("grant_type", "authorization_code");
     ("code", code)].

(** The [try]/[except CurlError] around the token request. *)
Definition token_exchange (url : Url) : M pyval :=
  @try_except pyval
    (req ← token_request url; fetch w req)
    (λ ex, if is_CurlError ex
           then Some (
             flag ← get_flag;
             emit (EvInfo (retry_message flag));;
             flag ← get_flag;
             set_flag (negb flag);;
             req ← token_request url;
             fetch w req)
           else None).

Definition authenticate (handler : Handler)
  : M (option (gmap string pyval)) :=
  code ← match get_argument handler "code" with
         | Some c => ret c
         | None => raise (MissingArgumentError "code")
         end;
  let url := token_url_with code in
  resp ← token_exchange url;
  access_token ← lift (getitem resp "access_token");
  user_info ← _get_openshift_user_info access_token;
  ret user_info.

Definition refresh_user (user : User) : M (option (gmap string pyval)) :=
  let auth_state := get_auth_state user in
  access_token ← lift (getitem auth_state "access_token");
  user_info ← _get_openshift_user_info access_token;
  (if not_user_info user_info then emit (EvStop user) else ret tt);;
  ret user_info.

End Authenticator.

(** ** Vocabulary of the specification *)

(** Two group sets intersect. *)
Definition intersects (a b : gset hashable) : Prop := a ∩ b ≠ ∅.

(** Two group sets have an element in common that Python counts as true; for
    group names, a name other than the empty string. *)
Definition share_truthy (a b : gset hashable) : Prop :=
  ∃ x, x ∈ a ∧ x ∈ b ∧ truthy x = true.

(** A run that ends with a user-info record. *)
Definition granted (r : result (option (gmap string pyval)) * state) : Prop :=
  ∃ user_info, fst r = Ok (Some user_info).

(** A state after some more events. *)
Definition after (s : state) (evs : list event) : state :=
  mkState (use_ca_certs_for_token_request s) (trace s ++ evs).

(** ** Sample deployments *)

Module Sample.

Definition cluster_ca : string :=
  "/run/secrets/kubernetes.io/serviceaccount/ca.crt".

Definition system_ca : string := "/etc/pki/tls/cert.pem".

(** A hub with the given [allowed_groups] and [admin_groups]. *)
Definition hub (allowed admin : gset hashable) : OpenShiftOAuthenticator :=
  {| client_id := "jupyterhub";
     client_secret := "s3cret";
     token_url := "https://oauth.apps.example/oauth/token";
     userdata_url := "https://api.example:6443/apis/user.openshift.io/v1/users/~";
     validate_server_cert := true;
     ca_certs := cluster_ca;
     system_ca_certs := system_ca;
     allowed_groups := allowed;
     admin_groups := admin |}.

(** A hub outside the cluster: no service-account CA, [ca_certs] is ''. *)
Definition bare_hub : OpenShiftOAuthenticator :=
  {| client_id := "jupyterhub";
     client_secret := "s3cret";
     token_url := "https://oauth.apps.example/oauth/token";
     userdata_url := "https://api.example:6443/apis/user.openshift.io/v1/users/~";
     validate_server_cert := true;
     ca_certs := "";
     system_ca_certs := system_ca;
     allowed_groups := ∅;
     admin_groups := ∅ |}.

Definition token : pyval := PStr "sha256~Zm9v".

Definition token_response : pyval :=
  PDict (<["expires_in" := PInt 86400]> {["access_token" := token]}).

(** The User object of alice, with the given [groups] entry. *)
Definition alice (groups : pyval) : pyval :=
  PDict (<["groups" := groups]>
           {["metadata" := PDict {["name" := PStr "alice"]}]}).

Definition is_post (req : HTTPRequest) : bool :=
  String.eqb (req_method req) "POST".

(** A cluster that hands out [token] and knows alice. *)
Definition cluster (groups : pyval) : World :=
  λ _ req, if is_post req then Ok token_response else Ok (alice groups).

(** The same, but its OAuth server is not signed by the cluster CA. *)
Definition picky_cluster (groups : pyval) : World :=
  λ _ req,
    if is_post req then
      if String.eqb (req_ca_certs req) cluster_ca
      then Raise CurlError else Ok token_response
    else Ok (alice groups).

(** A cluster whose OAuth server never completes the handshake. *)
Definition dead_cluster : World :=
  λ _ req, if is_post req then Raise CurlError else Ok (alice (PList [])).

(** A cluster whose user-info endpoint answers with an HTTP error. *)
Definition failing_cluster (code : Z) : World :=
  λ _ req, if is_post req then Ok token_response else Raise (HTTPError code).

(** The callback request, with its [code] argument. *)
Definition callback : Handler :=
  {| get_argument := λ k, if String.eqb k "code" then Some "c0de" else None |}.

(** A hub user with a stored token. *)
Definition alice_user : User :=
  {| user_name := "alice";
     get_auth_state := PDict {["access_token" := token]} |}.

Definition dev : hashable := HStr "dev".
Definition ops : hashable := HStr "ops".

End Sample.

(** ** Defaults of the traits *)

(** What the defaults read of the machine: the environment and which files
    exist. *)
Record Host : Type := mkHost {
  environ : gmap string string;
  path_exists : string → bool
}.

(** [x or d], for [x] a str or [None] and [d] a str. *)
Definition str_or (x : option string) (d : string) : string :=
  match x with
  | Some s => if String.eqb s "" then d else s
  | None => d
  end.

Definition in_cluster_url : string :=
  "https://openshift.default.svc.cluster.local".

(** [os.environ.get('OPENSHIFT_URL') or 'https://openshift.default.svc.cluster.local'] *)
Definition openshift_url_default (host : Host) : string :=
  str_or (environ host !! "OPENSHIFT_URL") in_cluster_url.

Definition _ca_certs_default (host : Host) (validate : bool) : string :=
  let ca_cert_file := "/run/secrets/kubernetes.io/serviceaccount/ca.crt" in
  if validate && path_exists host ca_cert_file then ca_cert_file else "".

Definition _system_ca_certs_default (host : Host) (validate : bool) : string :=
  let ca_cert_file := "/etc/pki/tls/cert.pem" in
  if validate && path_exists host ca_cert_file then ca_cert_file else "".

(** The [verify] argument of [requests.get]: a CA bundle or a bool. *)
Inductive verify : Type :=
| VerifyPath (ca : string)
| VerifyBool (b : bool).

(** [self.ca_certs or self.validate_server_cert] *)
Definition verify_of (ca : string) (validate : bool) : verify :=
  if String.eqb ca "" then VerifyBool validate else VerifyPath ca.

(** [bool(v)]: whether [requests] checks the server certificate at all. *)
Definition verify_bool (v : verify) : bool :=
  match v with
  | VerifyPath ca => negb (String.eqb ca "")
  | VerifyBool b => b
  end.

(** [requests.get(url, verify=v).json()]: the document, or what went wrong. *)
Definition Discovery : Type := string → verify → result pyval.

(** [v.get(k)]: a dict answers, with [None] for a key it lacks; the other
    JSON values have no [get]. *)
Definition py_get (v : pyval) (k : string) : result pyval :=
  match v with
  | PDict d =>
      match d !! k with
      | Some x => Ok x
      | None => Ok PNone
      end
  | _ => Raise (OtherError "AttributeError")
  end.

(** The body of the [@default("openshift_auth_api_url")] method: what it
    returns is not yet the value of the trait, see [openshift_auth_api_url_default]. *)
Definition _openshift_auth_api_url_default (get : Discovery)
    (openshift_url ca : string) (validate : bool) : result pyval :=
  let auth_info_url :=
    openshift_url +:+ "/.well-known/oauth-authorization-server" in
  resp_json ← get auth_info_url (verify_of ca validate);
  py_get resp_json "issuer".

(** traitlets: a [Unicode] trait takes a str and nothing else ([None]
    included, as the trait does not allow it); anything else is a
    [TraitError]. *)
Definition Unicode_validate (v : pyval) : result string :=
  match v with
  | PStr s => Ok s
  | _ => Raise (OtherError "TraitError")
  end.

(** [openshift_auth_api_url = Unicode(config=True)] when it is not
    configured: traitlets calls the default method and validates what it
    returns like any value given to the trait. *)
Definition openshift_auth_api_url_default (get : Discovery)
    (openshift_url ca : string) (validate : bool) : result string :=
  v ← _openshift_auth_api_url_default get openshift_url ca validate;
  Unicode_validate v.

Definition _openshift_rest_api_url_default (openshift_url : string) : string :=
  openshift_url.

Definition _authorize_url_default (openshift_auth_api_url : string) : string :=
  openshift_auth_api_url +:+ "/oauth/authorize".

Definition _token_url_default (openshift_auth_api_url : string) : string :=
  openshift_auth_api_url +:+ "/oauth/token".

Definition _userdata_url_default (openshift_rest_api_url : string) : string :=
  openshift_rest_api_url +:+ "/apis/user.openshift.io/v1/users/~".

(** ** Reading a trace *)

(** The requests among some events, in order. *)
Definition fetched (evs : list event) : list HTTPRequest :=
  omap (λ ev, match ev with EvFetch req => Some req | _ => None end) evs.

(** The users stopped among some events, in order. *)
Definition stopped (evs : list event) : list User :=
  omap (λ ev, match ev with EvStop u => Some u | _ => None end) evs.

(** ** More sample deployments *)

Module Edge.

(** An OAuth server that turns the code down with a JSON error document. *)
Definition refusing_cluster : World :=
  λ _ req,
    if Sample.is_post req
    then Ok (PDict {["error" := PStr "invalid_grant"]})
    else Ok (Sample.alice (PList [])).

(** An OAuth server that answers the token request with an HTTP error. *)
Definition rejecting_cluster (code : Z) : World :=
  λ _ req,
    if Sample.is_post req
    then Raise (HTTPError code)
    else Ok (Sample.alice (PList [])).

(** A cluster that answers the user lookup with the given document. *)
Definition cluster_with (ocp_user : pyval) : World :=
  λ _ req, if Sample.is_post req then Ok Sample.token_response else Ok ocp_user.

(** A User object without a [groups] entry. *)
Definition groupless : pyval :=
  PDict {["metadata" := PDict {["name" := PStr "bob"]}]}.

(** A User object without [metadata]. *)
Definition nameless : pyval :=
  PDict {["groups" := PList [PStr "dev"]]}.

(** A callback request that lacks the [code] argument. *)
Definition bare_callback : Handler :=
  {| get_argument := λ _, None |}.

(** A hub user whose auth state was not kept. *)
Definition forgotten_user : User :=
  {| user_name := "carol"; get_auth_state := PNone |}.

(** A pod of the cluster: no environment setting, both CA files there. *)
Definition pod : Host :=
  {| environ := ∅; path_exists := λ _, true |}.

(** A machine outside the cluster: the URL is set, no service-account CA. *)
Definition laptop : Host :=
  {| environ := {["OPENSHIFT_URL" := "https://api.example:6443"]};
     path_exists := λ p, String.eqb p "/etc/pki/tls/cert.pem" |}.

(** A discovery endpoint that serves the given document. *)
Definition serving (doc : pyval) : Discovery := λ _ _, Ok doc.

End Edge.

(** * Properties *)

(** ** Group membership *)

Lemma user_in_groups_true (u a : gset hashable) :
  user_in_groups u a = true ↔ share_truthy u a.
Proof.
  unfold user_in_groups, share_truthy. rewrite existsb_exists. split.
  - intros (x & Hin & Ht). exists x.
    apply list_elem_of_In, elem_of_elements, elem_of_intersection in Hin.
    tauto.
  - intros (x & Hu & Ha & Ht). exists x. split; [|done].
    apply list_elem_of_In, elem_of_elements, elem_of_intersection. done.
Qed.

Lemma user_in_groups_false (u a : gset hashable) :
  user_in_groups u a = false ↔ ¬ share_truthy u a.
Proof.
  rewrite <- user_in_groups_true. destruct (user_in_groups u a); naive_solver.
Qed.

Lemma share_truthy_intersects (u a : gset hashable) :
  share_truthy u a → intersects u a.
Proof. intros (x & Hu & Ha & _). unfold intersects. set_solver. Qed.

Lemma set_bool_true (s : gset hashable) : set_bool s = true ↔ s ≠ ∅.
Proof.
  unfold set_bool. rewrite negb_true_iff, bool_decide_eq_false. done.
Qed.

Lemma set_bool_false (s : gset hashable) : set_bool s = false ↔ s = ∅.
Proof.
  unfold set_bool. rewrite negb_false_iff, bool_decide_eq_true. done.
Qed.

Lemma user_in_groups_empty_r (u : gset hashable) : user_in_groups u ∅ = false.
Proof.
  apply user_in_groups_false. intros (x & _ & Hx & _). set_solver.
Qed.

(** C9. [user_in_groups] is true exactly when the intersection of the two
    sets holds an element that Python counts as true (for a group name: not
    the empty string); when the empty string is the only common element the
    answer is false. *)
Theorem user_in_groups_iff_truthy_common (user_groups configured : gset hashable) :
  (user_in_groups user_groups configured = true
   ↔ ∃ x, x ∈ user_groups ∩ configured ∧ truthy x = true)
  ∧ (∀ s, truthy (HStr s) = true ↔ s ≠ "")
  ∧ (user_groups ∩ configured = {[ HStr "" ]}
     → user_in_groups user_groups configured = false).
Proof.
  split; [|split].
  - rewrite user_in_groups_true. unfold share_truthy.
    split; intros (x & Hx); exists x;
      rewrite elem_of_intersection in *; tauto.
  - intros s. simpl. rewrite negb_true_iff. split.
    + intros H ->. discriminate.
    + intros H. apply String.eqb_neq. done.
  - intros Hcap. unfold user_in_groups. rewrite Hcap.
    rewrite elements_singleton. reflexivity.
Qed.

Lemma user_in_groups_iff_truthy_common_witness :
  ({[ HStr ""; HStr "dev" ]} : gset hashable) ∩ {[ HStr ""; HStr "ops" ]}
    = {[ HStr "" ]}
  ∧ user_in_groups {[ HStr ""; HStr "dev" ]} {[ HStr ""; HStr "ops" ]} = false.
Proof.
  assert (H : ({[ HStr ""; HStr "dev" ]} : gset hashable)
                ∩ {[ HStr ""; HStr "ops" ]} = {[ HStr "" ]})
    by (vm_compute; reflexivity).
  split; [exact H|].
  exact (proj2 (proj2 (user_in_groups_iff_truthy_common _ _)) H).
Defined.

(** ** Running the group policy and the lookup *)

(** Lays a coroutine open down to the state-passing function it is. *)
Ltac unfold_run :=
  unfold mbind, M_bind, bind, try_except, token_request, fetch, lift,
    get_flag, set_flag, emit, ret; simpl.

Lemma new_user_info_dom (username tok ocp : pyval) :
  dom (new_user_info username tok ocp) = {[ "name"; "auth_state" ]}.
Proof.
  unfold new_user_info. rewrite dom_insert_L, dom_singleton_L. set_solver.
Qed.

Lemma user_groups_of_new (username tok ocp : pyval) :
  user_groups_of (new_user_info username tok ocp)
  = (groups ← getitem ocp "groups"; py_set groups).
Proof. reflexivity. Qed.

Lemma user_groups_of_admin (b : bool) (user_info : gmap string pyval) :
  user_groups_of (<["admin" := PBool b]> user_info) = user_groups_of user_info.
Proof.
  unfold user_groups_of, dict_getitem, getitem.
  rewrite lookup_insert_ne by done. reflexivity.
Qed.

(** The policy, once the groups and the name can be read off the record. *)
Lemma add_group_info_run self user_info ug username s :
  user_groups_of user_info = Ok ug →
  dict_getitem user_info "name" = Ok username →
  _add_openshift_group_info self user_info s =
    if set_bool (admin_groups self) then
      if user_in_groups ug (admin_groups self)
         || user_in_groups ug (allowed_groups self)
      then (Ok (Some (<["admin" := PBool (user_in_groups ug (admin_groups self))]>
                        user_info)), s)
      else (Ok None, after s [EvWarning (denial_message username)])
    else if user_in_groups ug (allowed_groups self)
      then (Ok (Some user_info), s)
      else (Ok None, after s [EvWarning (denial_message username)]).
Proof.
  intros Hg Hn. unfold _add_openshift_group_info. unfold_run.
  rewrite Hg, Hn.
  destruct (set_bool (admin_groups self)); simpl;
    destruct (user_in_groups ug (admin_groups self)); simpl;
    destruct (user_in_groups ug (allowed_groups self)); reflexivity.
Qed.

(** When the policy raises, it is because the groups could not be read. *)
Lemma add_group_info_raise self user_info username s e :
  dict_getitem user_info "name" = Ok username →
  user_groups_of user_info = Raise e →
  _add_openshift_group_info self user_info s = (Raise e, s).
Proof.
  intros Hn Hg. unfold _add_openshift_group_info. unfold_run.
  rewrite Hg. reflexivity.
Qed.

(** The lookup, once the user-info endpoint has answered with a user that
    carries a name. *)
Lemma lookup_run w self tok ocp username s :
  w (trace s) (userdata_request self tok) = Ok ocp →
  username_of ocp = Ok username →
  _get_openshift_user_info w self tok s =
    if set_bool (allowed_groups self) || set_bool (admin_groups self)
    then _add_openshift_group_info self (new_user_info username tok ocp)
           (after s [EvFetch (userdata_request self tok)])
    else (Ok (Some (new_user_info username tok ocp)),
          after s [EvFetch (userdata_request self tok)]).
Proof.
  intros Hw Hn. unfold _get_openshift_user_info. unfold_run.
  rewrite Hw. simpl. rewrite Hn.
  destruct (set_bool (allowed_groups self) || set_bool (admin_groups self));
    reflexivity.
Qed.

(** The lookup, when the endpoint fails. *)
Lemma lookup_run_raise w self tok e s :
  w (trace s) (userdata_request self tok) = Raise e →
  _get_openshift_user_info w self tok s =
    (if is_HTTPError e && Z.eqb (exn_code e) 401 then Ok None else Raise e,
     after s [EvFetch (userdata_request self tok)]).
Proof.
  intros Hw. unfold _get_openshift_user_info. unfold_run.
  rewrite Hw. simpl.
  destruct (is_HTTPError e); simpl; [|reflexivity].
  destruct (exn_code e =? 401)%Z; reflexivity.
Qed.

Lemma lookup_run_noname w self tok ocp e s :
  w (trace s) (userdata_request self tok) = Ok ocp →
  username_of ocp = Raise e →
  _get_openshift_user_info w self tok s =
    (Raise e, after s [EvFetch (userdata_request self tok)]).
Proof.
  intros Hw Hn. unfold _get_openshift_user_info. unfold_run.
  rewrite Hw. simpl. rewrite Hn. reflexivity.
Qed.

(** What a lookup that ends with a record has gone through. *)
Lemma lookup_some_inv w self tok s user_info s' :
  _get_openshift_user_info w self tok s = (Ok (Some user_info), s') →
  ∃ ocp username,
    w (trace s) (userdata_request self tok) = Ok ocp
    ∧ username_of ocp = Ok username
    ∧ s' = after s [EvFetch (userdata_request self tok)]
    ∧ if set_bool (admin_groups self) then
        ∃ ug, user_groups_of (new_user_info username tok ocp) = Ok ug
              ∧ user_in_groups ug (admin_groups self)
                || user_in_groups ug (allowed_groups self) = true
              ∧ user_info = <["admin" := PBool (user_in_groups ug (admin_groups self))]>
                              (new_user_info username tok ocp)
      else if set_bool (allowed_groups self) then
        ∃ ug, user_groups_of (new_user_info username tok ocp) = Ok ug
              ∧ user_in_groups ug (allowed_groups self) = true
              ∧ user_info = new_user_info username tok ocp
      else user_info = new_user_info username tok ocp.
Proof.
  intros Hrun.
  destruct (w (trace s) (userdata_request self tok)) as [ocp|e] eqn:Hw.
  2:{ rewrite (lookup_run_raise _ _ _ _ _ Hw) in Hrun.
      destruct (is_HTTPError e && (exn_code e =? 401)%Z); discriminate. }
  destruct (username_of ocp) as [username|e] eqn:Hn.
  2:{ rewrite (lookup_run_noname _ _ _ _ _ _ Hw Hn) in Hrun. discriminate. }
  exists ocp, username. split; [done|]. split; [done|].
  rewrite (lookup_run _ _ _ _ _ _ Hw Hn) in Hrun.
  assert (Hname : dict_getitem (new_user_info username tok ocp) "name" = Ok username)
    by reflexivity.
  destruct (user_groups_of (new_user_info username tok ocp)) as [ug|e] eqn:Hg.
  - rewrite (add_group_info_run _ _ _ _ _ Hg Hname) in Hrun.
    destruct (set_bool (admin_groups self)) eqn:Had.
    + rewrite orb_true_r in Hrun.
      destruct (user_in_groups ug (admin_groups self)
                || user_in_groups ug (allowed_groups self)) eqn:Hin;
        [|discriminate].
      injection Hrun as <- <-. split; [done|]. exists ug. done.
    + rewrite orb_false_r in Hrun.
      destruct (set_bool (allowed_groups self)) eqn:Hal.
      * destruct (user_in_groups ug (allowed_groups self)) eqn:Hin;
          [|discriminate].
        injection Hrun as <- <-. split; [done|]. exists ug. done.
      * injection Hrun as <- <-. done.
  - rewrite (add_group_info_raise _ _ _ _ _ Hname Hg) in Hrun.
    destruct (set_bool (admin_groups self)) eqn:Had.
    + rewrite orb_true_r in Hrun. discriminate.
    + rewrite orb_false_r in Hrun.
      destruct (set_bool (allowed_groups self)) eqn:Hal; [discriminate|].
      injection Hrun as <- <-. done.
Qed.

(** ** Admission by group *)

(** The admission the code computes, in terms of [user_in_groups]: once the
    user-info endpoint has answered with a named user, with neither set
    configured the user is let in and the groups are not looked at; with the
    groups [ug] of the user read, the outcome follows what [user_in_groups]
    says of [ug] and the configured sets; and a run that turns the user away
    ends with [None], not with an exception. *)
Lemma group_admission w self tok ocp username s :
  w (trace s) (userdata_request self tok) = Ok ocp →
  username_of ocp = Ok username →
  let r := _get_openshift_user_info w self tok s in
  (admin_groups self = ∅ → allowed_groups self = ∅ →
   r = (Ok (Some (new_user_info username tok ocp)),
        after s [EvFetch (userdata_request self tok)]))
  ∧ (∀ groups ug,
       getitem ocp "groups" = Ok groups → py_set groups = Ok ug →
       (admin_groups self ≠ ∅ →
        (granted r ↔ share_truthy ug (admin_groups self)
                      ∨ share_truthy ug (allowed_groups self)))
       ∧ (admin_groups self = ∅ → allowed_groups self ≠ ∅ →
          (granted r ↔ share_truthy ug (allowed_groups self)))
       ∧ (¬ granted r → fst r = Ok None)).
Proof.
  intros Hw Hn r. subst r. rewrite (lookup_run _ _ _ _ _ _ Hw Hn). split.
  - intros Had Hal. apply set_bool_false in Had, Hal.
    rewrite Had, Hal. reflexivity.
  - intros groups ug Hgr Hset.
    assert (Hg : user_groups_of (new_user_info username tok ocp) = Ok ug).
    { rewrite user_groups_of_new, Hgr. exact Hset. }
    assert (Hname : dict_getitem (new_user_info username tok ocp) "name" = Ok username)
      by reflexivity.
    rewrite (add_group_info_run _ _ _ _ _ Hg Hname).
    rewrite <- !user_in_groups_true.
    split; [|split].
    + intros Had. apply set_bool_true in Had. rewrite Had, orb_true_r.
      unfold granted.
      destruct (user_in_groups ug (admin_groups self)),
               (user_in_groups ug (allowed_groups self)); simpl;
        (split; [intros [ui Hui]; simpl in Hui; (discriminate || auto)
                |intros [H|H]; (discriminate || eauto)]).
    + intros Had Hal. apply set_bool_false in Had. apply set_bool_true in Hal.
      rewrite Had, Hal. simpl. unfold granted.
      destruct (user_in_groups ug (allowed_groups self)); simpl;
        (split; [intros [ui Hui]; simpl in Hui; (discriminate || auto)
                |intros H; (discriminate || eauto)]).
    + unfold granted.
      destruct (set_bool (allowed_groups self)), (set_bool (admin_groups self)),
               (user_in_groups ug (admin_groups self)),
               (user_in_groups ug (allowed_groups self)); simpl;
        intros Hno; try reflexivity; exfalso; apply Hno; eauto.
Qed.

(** Where every configured name is true for Python (no empty group name),
    sharing a true element and intersecting are the same. *)
Lemma share_truthy_iff_intersects (u a : gset hashable) :
  (∀ x, x ∈ a → truthy x = true) →
  share_truthy u a ↔ intersects u a.
Proof.
  intros Hall. split; [apply share_truthy_intersects|].
  intros Hne. apply set_choose_L in Hne. destruct Hne as [x Hx].
  apply elem_of_intersection in Hx. destruct Hx as [Hu Ha].
  exists x. split; [exact Hu|]. split; [exact Ha|apply Hall, Ha].
Qed.

(** Away from the empty group name the admission is as specified: when no
    configured group name is empty (or otherwise false for Python), the user
    is let in iff their groups intersect [admin_groups] or [allowed_groups],
    respectively [allowed_groups] alone when only that is configured. *)
Lemma group_admission_as_claimed w self tok ocp username s :
  (∀ x, x ∈ admin_groups self ∪ allowed_groups self → truthy x = true) →
  w (trace s) (userdata_request self tok) = Ok ocp →
  username_of ocp = Ok username →
  let r := _get_openshift_user_info w self tok s in
  (admin_groups self = ∅ → allowed_groups self = ∅ →
   r = (Ok (Some (new_user_info username tok ocp)),
        after s [EvFetch (userdata_request self tok)]))
  ∧ (∀ groups ug,
       getitem ocp "groups" = Ok groups → py_set groups = Ok ug →
       (admin_groups self ≠ ∅ →
        (granted r ↔ intersects ug (admin_groups self)
                      ∨ intersects ug (allowed_groups self)))
       ∧ (admin_groups self = ∅ → allowed_groups self ≠ ∅ →
          (granted r ↔ intersects ug (allowed_groups self)))
       ∧ (¬ granted r → fst r = Ok None)).
Proof.
  intros Hall Hw Hn r.
  destruct (group_admission w self tok ocp username s Hw Hn) as [Hnone Hsome].
  split; [exact Hnone|].
  intros groups ug Hgr Hset.
  destruct (Hsome groups ug Hgr Hset) as (Hadm & Hal & Hdeny).
  assert (Ha : ∀ x, x ∈ admin_groups self → truthy x = true)
    by (intros x Hx; apply Hall, elem_of_union; auto).
  assert (Hb : ∀ x, x ∈ allowed_groups self → truthy x = true)
    by (intros x Hx; apply Hall, elem_of_union; auto).
  rewrite <- (share_truthy_iff_intersects ug _ Ha).
  rewrite <- (share_truthy_iff_intersects ug _ Hb).
  split; [exact Hadm|]. split; [exact Hal|exact Hdeny].
Qed.

Lemma group_admission_as_claimed_witness :
  (∀ x, x ∈ admin_groups (Sample.hub {[ Sample.dev ]} {[ Sample.ops ]})
          ∪ allowed_groups (Sample.hub {[ Sample.dev ]} {[ Sample.ops ]}) →
        truthy x = true)
  ∧ (granted (_get_openshift_user_info (Sample.cluster (PList [PStr "dev"]))
                (Sample.hub {[ Sample.dev ]} {[ Sample.ops ]}) Sample.token fresh)
     ↔ intersects {[ Sample.dev ]} {[ Sample.ops ]}
       ∨ intersects {[ Sample.dev ]} {[ Sample.dev ]}).
Proof.
  assert (Hall : ∀ x, x ∈ admin_groups (Sample.hub {[ Sample.dev ]} {[ Sample.ops ]})
                        ∪ allowed_groups (Sample.hub {[ Sample.dev ]} {[ Sample.ops ]}) →
                      truthy x = true).
  { intros x Hx. simpl in Hx. apply elem_of_union in Hx.
    destruct Hx as [Hx|Hx]; apply elem_of_singleton in Hx; subst x; reflexivity. }
  split; [exact Hall|].
  refine (proj1 (proj2 (group_admission_as_claimed
            (Sample.cluster (PList [PStr "dev"]))
            (Sample.hub {[ Sample.dev ]} {[ Sample.ops ]})
            Sample.token (Sample.alice (PList [PStr "dev"])) (PStr "alice")
            fresh Hall eq_refl eq_refl) (PList [PStr "dev"]) {[ Sample.dev ]} eq_refl _) _).
  - vm_compute. reflexivity.
  - vm_compute. discriminate.
Defined.

(** C1.  The code at the input that breaks the claim: with
    [admin_groups = {''}] and a user whose only group is [''], the user's
    groups intersect [admin_groups], so admission is due; [user_in_groups]
    asks [any] of the intersection, which is false of [''], and the user is
    turned away with [None]. *)
Theorem group_admission_fails_on_empty_name :
  py_set (PList [PStr ""]) = Ok {[ HStr "" ]}
  ∧ admin_groups (Sample.hub ∅ {[ HStr "" ]}) ≠ ∅
  ∧ intersects {[ HStr "" ]} (admin_groups (Sample.hub ∅ {[ HStr "" ]}))
  ∧ fst (authenticate (Sample.cluster (PList [PStr ""]))
           (Sample.hub ∅ {[ HStr "" ]}) Sample.callback fresh) = Ok None
  ∧ ¬ (granted (_get_openshift_user_info (Sample.cluster (PList [PStr ""]))
                   (Sample.hub ∅ {[ HStr "" ]}) Sample.token fresh)
       ↔ intersects {[ HStr "" ]} (admin_groups (Sample.hub ∅ {[ HStr "" ]}))
         ∨ intersects {[ HStr "" ]} (allowed_groups (Sample.hub ∅ {[ HStr "" ]}))).
Proof.
  assert (Hne : ({[ HStr "" ]} : gset hashable) ≠ ∅).
  { intros H. apply (f_equal (λ s, bool_decide (HStr "" ∈ s))) in H.
    vm_compute in H. discriminate. }
  assert (Hint : intersects {[ HStr "" ]} ({[ HStr "" ]} : gset hashable)).
  { unfold intersects. replace (({[ HStr "" ]} : gset hashable) ∩ {[ HStr "" ]})
      with ({[ HStr "" ]} : gset hashable) by (vm_compute; reflexivity).
    exact Hne. }
  split; [vm_compute; reflexivity|]. split; [exact Hne|]. split; [exact Hint|].
  split; [vm_compute; reflexivity|].
  intros [_ Hback]. destruct (Hback (or_introl Hint)) as [ui Hui].
  vm_compute in Hui. discriminate.
Qed.

(** ** Running the token exchange *)

Lemma token_exchange_first_ok w self url s resp :
  w (trace s) (token_request_with self (use_ca_certs_for_token_request s) url)
  = Ok resp →
  token_exchange w self url s =
    (Ok resp,
     after s [EvFetch (token_request_with self
                         (use_ca_certs_for_token_request s) url)]).
Proof.
  intros Hw. unfold token_exchange. unfold_run. rewrite Hw. reflexivity.
Qed.

Lemma token_exchange_first_other w self url s e :
  w (trace s) (token_request_with self (use_ca_certs_for_token_request s) url)
  = Raise e →
  is_CurlError e = false →
  token_exchange w self url s =
    (Raise e,
     after s [EvFetch (token_request_with self
                         (use_ca_certs_for_token_request s) url)]).
Proof.
  intros Hw He. unfold token_exchange. unfold_run. rewrite Hw, He.
  reflexivity.
Qed.

Lemma token_exchange_retry w self url s :
  w (trace s) (token_request_with self (use_ca_certs_for_token_request s) url)
  = Raise CurlError →
  token_exchange w self url s =
    (w (trace s
        ++ [EvFetch (token_request_with self
                       (use_ca_certs_for_token_request s) url);
            EvInfo (retry_message (use_ca_certs_for_token_request s))])
       (token_request_with self (negb (use_ca_certs_for_token_request s)) url),
     mkState (negb (use_ca_certs_for_token_request s))
       ((trace s
         ++ [EvFetch (token_request_with self
                        (use_ca_certs_for_token_request s) url);
             EvInfo (retry_message (use_ca_certs_for_token_request s))])
        ++ [EvFetch (token_request_with self
                       (negb (use_ca_certs_for_token_request s)) url)])).
Proof.
  intros Hw. unfold token_exchange. unfold_run. rewrite Hw. simpl.
  rewrite <- !app_assoc. reflexivity.
Qed.

Lemma is_CurlError_true e : is_CurlError e = true → e = CurlError.
Proof. destruct e; simpl; congruence. Qed.

(** [authenticate], step by step. *)
Lemma authenticate_run w self handler code s :
  get_argument handler "code" = Some code →
  authenticate w self handler s =
    match token_exchange w self (token_url_with self code) s with
    | (Ok resp, s1) =>
        match getitem resp "access_token" with
        | Ok tok => _get_openshift_user_info w self tok s1
        | Raise e => (Raise e, s1)
        end
    | (Raise e, s1) => (Raise e, s1)
    end.
Proof.
  intros Hc. unfold authenticate, mbind, M_bind, bind, lift. rewrite Hc.
  simpl. destruct (token_exchange _ _ _ s) as [[resp|e] s1]; [|reflexivity].
  destruct (getitem resp "access_token") as [tok|e]; [|reflexivity].
  destruct (_get_openshift_user_info w self tok s1) as [[r|e] s2]; reflexivity.
Qed.

Lemma authenticate_no_code w self handler s :
  get_argument handler "code" = None →
  authenticate w self handler s = (Raise (MissingArgumentError "code"), s).
Proof.
  intros Hc. unfold authenticate, mbind, M_bind, bind. rewrite Hc. reflexivity.
Qed.

(** What an authentication that returns has gone through. *)
Lemma authenticate_ok_inv w self handler s r s' :
  authenticate w self handler s = (Ok r, s') →
  ∃ code resp tok s1,
    get_argument handler "code" = Some code
    ∧ token_exchange w self (token_url_with self code) s = (Ok resp, s1)
    ∧ getitem resp "access_token" = Ok tok
    ∧ _get_openshift_user_info w self tok s1 = (Ok r, s').
Proof.
  intros Hrun.
  destruct (get_argument handler "code") as [code|] eqn:Hc.
  2:{ rewrite (authenticate_no_code _ _ _ _ Hc) in Hrun. discriminate. }
  rewrite (authenticate_run _ _ _ _ _ Hc) in Hrun.
  destruct (token_exchange _ _ _ s) as [[resp|e] s1] eqn:Hx; [|discriminate].
  destruct (getitem resp "access_token") as [tok|e] eqn:Ht; [|discriminate].
  exists code, resp, tok, s1. done.
Qed.

(** Every run of the lookup adds to the trace, starting with its request. *)
Lemma lookup_trace w self tok s :
  ∃ rest, trace (snd (_get_openshift_user_info w self tok s))
          = trace s ++ EvFetch (userdata_request self tok) :: rest.
Proof.
  destruct (w (trace s) (userdata_request self tok)) as [ocp|e] eqn:Hw.
  2:{ rewrite (lookup_run_raise _ _ _ _ _ Hw). exists []. reflexivity. }
  destruct (username_of ocp) as [username|e] eqn:Hn.
  2:{ rewrite (lookup_run_noname _ _ _ _ _ _ Hw Hn). exists []. reflexivity. }
  rewrite (lookup_run _ _ _ _ _ _ Hw Hn).
  destruct (set_bool (allowed_groups self) || set_bool (admin_groups self));
    [|exists []; reflexivity].
  assert (Hname : dict_getitem (new_user_info username tok ocp) "name" = Ok username)
    by reflexivity.
  destruct (user_groups_of (new_user_info username tok ocp)) as [ug|e] eqn:Hg.
  - rewrite (add_group_info_run _ _ _ _ _ Hg Hname).
    destruct (set_bool (admin_groups self)),
             (user_in_groups ug (admin_groups self)),
             (user_in_groups ug (allowed_groups self)); simpl;
      rewrite <- ?app_assoc; eexists; reflexivity.
  - rewrite (add_group_info_raise _ _ _ _ _ Hname Hg). exists []. reflexivity.
Qed.

(** ** The user lookup and HTTP errors *)

(** C3. When the user-info endpoint answers the lookup with an HTTP error,
    the lookup returns [None] if the status is 401 and raises that same error
    otherwise; in both cases nothing else is requested. *)
Theorem lookup_http_error w self access_token s e :
  w (trace s) (userdata_request self access_token) = Raise e →
  is_HTTPError e = true →
  (exn_code e = 401%Z →
   _get_openshift_user_info w self access_token s
   = (Ok None, after s [EvFetch (userdata_request self access_token)]))
  ∧ (exn_code e ≠ 401%Z →
     _get_openshift_user_info w self access_token s
     = (Raise e, after s [EvFetch (userdata_request self access_token)])).
Proof.
  intros Hw He. rewrite (lookup_run_raise _ _ _ _ _ Hw), He. simpl. split.
  - intros ->. reflexivity.
  - intros Hc. apply Z.eqb_neq in Hc. rewrite Hc. reflexivity.
Qed.

Lemma lookup_http_error_witness :
  fst (_get_openshift_user_info (Sample.failing_cluster 401)
         (Sample.hub ∅ ∅) Sample.token fresh) = Ok None
  ∧ fst (_get_openshift_user_info (Sample.failing_cluster 503)
           (Sample.hub ∅ ∅) Sample.token fresh) = Raise (HTTPError 503).
Proof.
  split.
  - rewrite (proj1 (lookup_http_error (Sample.failing_cluster 401)
                      (Sample.hub ∅ ∅) Sample.token fresh (HTTPError 401)
                      eq_refl eq_refl) eq_refl).
    reflexivity.
  - rewrite (proj2 (lookup_http_error (Sample.failing_cluster 503)
                      (Sample.hub ∅ ∅) Sample.token fresh (HTTPError 503)
                      eq_refl eq_refl)); [reflexivity|].
    simpl. discriminate.
Defined.

(** ** The retry of the token request *)

(** C4. If the first token request of an authentication ends in a
    [CurlError], one more token request is made, with the other CA bundle
    (the flag is flipped and stays flipped).  If that one is answered,
    authentication goes on with the answer; if it fails, its exception is
    what [authenticate] raises, and no further request is made. *)
Theorem token_request_retried_once w self handler code s :
  get_argument handler "code" = Some code →
  let url := token_url_with self code in
  let flag := use_ca_certs_for_token_request s in
  let first := token_request_with self flag url in
  let second := token_request_with self (negb flag) url in
  let retried := trace s ++ [EvFetch first; EvInfo (retry_message flag)] in
  let s1 := mkState (negb flag) (retried ++ [EvFetch second]) in
  w (trace s) first = Raise CurlError →
  req_ca_certs first = (if flag then ca_certs self else system_ca_certs self)
  ∧ req_ca_certs second = (if flag then system_ca_certs self else ca_certs self)
  ∧ token_exchange w self url s = (w retried second, s1)
  ∧ (∀ resp, w retried second = Ok resp →
       authenticate w self handler s =
         match getitem resp "access_token" with
         | Ok tok => _get_openshift_user_info w self tok s1
         | Raise e => (Raise e, s1)
         end)
  ∧ (∀ e, w retried second = Raise e →
       authenticate w self handler s = (Raise e, s1)).
Proof.
  intros Hc url flag first second retried s1 Hw.
  pose proof (token_exchange_retry w self url s Hw) as Hx.
  fold flag first second retried s1 in Hx.
  split; [|split; [|split; [|split]]].
  - reflexivity.
  - subst second. simpl. destruct flag; reflexivity.
  - exact Hx.
  - intros resp Hr. rewrite (authenticate_run _ _ _ _ _ Hc).
    fold url. rewrite Hx, Hr. reflexivity.
  - intros e Hr. rewrite (authenticate_run _ _ _ _ _ Hc).
    fold url. rewrite Hx, Hr. reflexivity.
Qed.

Lemma token_request_retried_once_witness :
  get_argument Sample.callback "code" = Some "c0de"
  ∧ Sample.picky_cluster (PList [PStr "dev"]) (trace fresh)
      (token_request_with (Sample.hub ∅ ∅) true
         (token_url_with (Sample.hub ∅ ∅) "c0de")) = Raise CurlError
  ∧ token_exchange (Sample.picky_cluster (PList [PStr "dev"])) (Sample.hub ∅ ∅)
      (token_url_with (Sample.hub ∅ ∅) "c0de") fresh
    = (Ok Sample.token_response,
       mkState false
         [EvFetch (token_request_with (Sample.hub ∅ ∅) true
                     (token_url_with (Sample.hub ∅ ∅) "c0de"));
          EvInfo (retry_message true);
          EvFetch (token_request_with (Sample.hub ∅ ∅) false
                     (token_url_with (Sample.hub ∅ ∅) "c0de"))])
  ∧ authenticate Sample.dead_cluster (Sample.hub ∅ ∅) Sample.callback fresh
    = (Raise CurlError,
       mkState false
         [EvFetch (token_request_with (Sample.hub ∅ ∅) true
                     (token_url_with (Sample.hub ∅ ∅) "c0de"));
          EvInfo (retry_message true);
          EvFetch (token_request_with (Sample.hub ∅ ∅) false
                     (token_url_with (Sample.hub ∅ ∅) "c0de"))]).
Proof.
  split; [reflexivity|]. split; [reflexivity|]. split.
  - exact (proj1 (proj2 (proj2 (token_request_retried_once
             (Sample.picky_cluster (PList [PStr "dev"])) (Sample.hub ∅ ∅)
             Sample.callback "c0de" fresh eq_refl eq_refl)))).
  - exact (proj2 (proj2 (proj2 (proj2 (token_request_retried_once
             Sample.dead_cluster (Sample.hub ∅ ∅)
             Sample.callback "c0de" fresh eq_refl eq_refl)))) CurlError eq_refl).
Defined.

(** ** Refresh *)

Lemma lookup_some_nonempty w self tok s user_info s' :
  _get_openshift_user_info w self tok s = (Ok (Some user_info), s') →
  user_info ≠ ∅.
Proof.
  intros Hrun. destruct (lookup_some_inv _ _ _ _ _ _ Hrun)
    as (ocp & username & _ & _ & _ & Hcase).
  assert (Hname : user_info !! "name" = Some username).
  { destruct (set_bool (admin_groups self)).
    - destruct Hcase as (ug & _ & _ & ->).
      rewrite lookup_insert_ne by done. reflexivity.
    - destruct (set_bool (allowed_groups self)).
      + destruct Hcase as (ug & _ & _ & ->). reflexivity.
      + subst user_info. reflexivity. }
  intros ->. rewrite lookup_empty in Hname. discriminate.
Qed.

(** C5. For a user whose stored auth state holds an access token,
    [refresh_user] runs the lookup of the login with that token.  When the
    lookup gives no user, the user is stopped and [None] is returned; when it
    gives a record, or raises, that is the outcome of the refresh and the user
    is left alone. *)
Theorem refresh_user_stops_lost_user w self user access_token s :
  getitem (get_auth_state user) "access_token" = Ok access_token →
  let r := _get_openshift_user_info w self access_token s in
  (fst r = Ok None →
   refresh_user w self user s = (Ok None, after (snd r) [EvStop user]))
  ∧ (∀ user_info, fst r = Ok (Some user_info) → refresh_user w self user s = r)
  ∧ (∀ e, fst r = Raise e → refresh_user w self user s = r).
Proof.
  intros Ht r. unfold refresh_user, mbind, M_bind, bind, lift. rewrite Ht.
  subst r. destruct (_get_openshift_user_info w self access_token s)
    as [[[ui|]|e] s1] eqn:Hrun; simpl.
  - split; [discriminate|]. split; [|discriminate].
    intros ? _. pose proof (lookup_some_nonempty _ _ _ _ _ _ Hrun) as Hne.
    rewrite bool_decide_eq_false_2 by exact Hne. reflexivity.
  - split; [reflexivity|]. split; discriminate.
  - split; [discriminate|]. split; [discriminate|]. reflexivity.
Qed.

Lemma refresh_user_stops_lost_user_witness :
  getitem (get_auth_state Sample.alice_user) "access_token" = Ok Sample.token
  ∧ refresh_user (Sample.failing_cluster 401) (Sample.hub ∅ ∅)
      Sample.alice_user fresh
    = (Ok None,
       mkState true
         [EvFetch (userdata_request (Sample.hub ∅ ∅) Sample.token);
          EvStop Sample.alice_user])
  ∧ refresh_user (Sample.cluster (PList [PStr "qa"]))
      (Sample.hub {[ Sample.dev ]} {[ Sample.ops ]}) Sample.alice_user fresh
    = (Ok None,
       mkState true
         [EvFetch (userdata_request (Sample.hub {[ Sample.dev ]} {[ Sample.ops ]})
                     Sample.token);
          EvWarning (denial_message (PStr "alice"));
          EvStop Sample.alice_user]).
Proof.
  split; [reflexivity|]. split.
  - rewrite (proj1 (refresh_user_stops_lost_user (Sample.failing_cluster 401)
                      (Sample.hub ∅ ∅) Sample.alice_user Sample.token fresh
                      eq_refl)); [reflexivity|].
    reflexivity.
  - rewrite (proj1 (refresh_user_stops_lost_user
                      (Sample.cluster (PList [PStr "qa"]))
                      (Sample.hub {[ Sample.dev ]} {[ Sample.ops ]})
                      Sample.alice_user Sample.token fresh eq_refl));
      vm_compute; reflexivity.
Defined.

(** ** The certificate-preference flag of a new authenticator *)

(** C8. The flag of a freshly constructed authenticator is [True] whatever
    is configured, since the class body tests the trait descriptor itself; so
    the first request of its first authentication is the token request with
    the [ca_certs] bundle, whatever [ca_certs] holds. *)
Theorem fresh_flag_prefers_ca_certs w self handler code :
  get_argument handler "code" = Some code →
  use_ca_certs_for_token_request fresh = true
  ∧ class_attr_bool ca_certs_attr = true
  ∧ ∃ req rest,
      trace (snd (authenticate w self handler fresh)) = EvFetch req :: rest
      ∧ req = token_request_with self true (token_url_with self code)
      ∧ req_ca_certs req = ca_certs self.
Proof.
  intros Hc. split; [reflexivity|]. split; [reflexivity|].
  exists (token_request_with self true (token_url_with self code)).
  cut (∃ rest, trace (snd (authenticate w self handler fresh))
               = EvFetch (token_request_with self true (token_url_with self code))
                   :: rest).
  { intros [rest H]. exists rest. done. }
  rewrite (authenticate_run _ _ _ _ _ Hc).
  set (url := token_url_with self code).
  set (first := token_request_with self true url).
  assert (Hgo : ∀ (r : result pyval) s1 rest,
             trace s1 = EvFetch first :: rest →
             ∃ rest', trace (snd (match r with
                                  | Ok resp =>
                                      match getitem resp "access_token" with
                                      | Ok tok => _get_openshift_user_info w self tok s1
                                      | Raise e => (Raise e, s1)
                                      end
                                  | Raise e => (Raise e, s1)
                                  end)) = EvFetch first :: rest').
  { intros [resp|e] s1 rest Hs1; [|eauto].
    destruct (getitem resp "access_token") as [tok|e]; [|eauto].
    destruct (lookup_trace w self tok s1) as [more Hmore].
    rewrite Hmore, Hs1. eexists. reflexivity. }
  destruct (w (trace fresh) first) as [resp|e] eqn:Hw.
  - rewrite (token_exchange_first_ok w self url fresh resp Hw).
    eapply (Hgo (Ok resp)). reflexivity.
  - destruct (is_CurlError e) eqn:He.
    + apply is_CurlError_true in He. subst e.
      rewrite (token_exchange_retry w self url fresh Hw).
      eapply Hgo. reflexivity.
    + rewrite (token_exchange_first_other w self url fresh e Hw He).
      eapply (Hgo (Raise e)). reflexivity.
Qed.

Lemma fresh_flag_prefers_ca_certs_witness :
  get_argument Sample.callback "code" = Some "c0de"
  ∧ ca_certs Sample.bare_hub = ""
  ∧ ∃ req rest,
      trace (snd (authenticate (Sample.cluster (PList [])) Sample.bare_hub
                    Sample.callback fresh)) = EvFetch req :: rest
      ∧ req_ca_certs req = "".
Proof.
  split; [reflexivity|]. split; [reflexivity|].
  destruct (fresh_flag_prefers_ca_certs (Sample.cluster (PList []))
              Sample.bare_hub Sample.callback "c0de" eq_refl)
    as (_ & _ & req & rest & Htr & _ & Hca).
  exists req, rest. split; [exact Htr|exact Hca].
Defined.

(** ** The user-info record *)

(** The record of a successful lookup is the new record, with or without an
    [admin] entry. *)
Lemma lookup_some_record w self tok s user_info s' :
  _get_openshift_user_info w self tok s = (Ok (Some user_info), s') →
  ∃ ocp username,
    w (trace s) (userdata_request self tok) = Ok ocp
    ∧ username_of ocp = Ok username
    ∧ (user_info = new_user_info username tok ocp
       ∨ ∃ b, user_info = <["admin" := PBool b]> (new_user_info username tok ocp)).
Proof.
  intros Hrun. destruct (lookup_some_inv _ _ _ _ _ _ Hrun)
    as (ocp & username & Hw & Hn & _ & Hcase).
  exists ocp, username. split; [done|]. split; [done|].
  destruct (set_bool (admin_groups self)).
  - destruct Hcase as (ug & _ & _ & ->). right. eauto.
  - destruct (set_bool (allowed_groups self)).
    + destruct Hcase as (ug & _ & _ & ->). left. reflexivity.
    + left. exact Hcase.
Qed.

(** C6. The record a successful authentication returns holds, under
    ['name'], the name of the user object fetched with the access token of
    the token response; under ['auth_state'], a dict of exactly that access
    token and that user object; possibly a boolean under ['admin']; and no
    other key. *)
Theorem user_info_shape w self handler s user_info s' :
  authenticate w self handler s = (Ok (Some user_info), s') →
  ∃ code resp access_token s1 ocp_user username,
    get_argument handler "code" = Some code
    ∧ token_exchange w self (token_url_with self code) s = (Ok resp, s1)
    ∧ getitem resp "access_token" = Ok access_token
    ∧ w (trace s1) (userdata_request self access_token) = Ok ocp_user
    ∧ username_of ocp_user = Ok username
    ∧ user_info !! "name" = Some username
    ∧ user_info !! "auth_state"
      = Some (PDict (<["openshift_user" := ocp_user]>
                       {["access_token" := access_token]}))
    ∧ (user_info !! "admin" = None ∨ ∃ b, user_info !! "admin" = Some (PBool b))
    ∧ dom user_info ⊆ {[ "name"; "auth_state"; "admin" ]}.
Proof.
  intros Hrun.
  destruct (authenticate_ok_inv _ _ _ _ _ _ Hrun)
    as (code & resp & tok & s1 & Hc & Hx & Ht & Hlook).
  destruct (lookup_some_record _ _ _ _ _ _ Hlook)
    as (ocp & username & Hw & Hn & Hrec).
  exists code, resp, tok, s1, ocp, username.
  repeat (split; [done|]).
  destruct Hrec as [->|[b ->]].
  - split; [reflexivity|]. split; [reflexivity|]. split; [left; reflexivity|].
    rewrite new_user_info_dom. apply union_subseteq_l.
  - rewrite !lookup_insert_ne by done. rewrite lookup_insert_eq.
    split; [reflexivity|]. split; [reflexivity|]. split; [right; eauto|].
    rewrite dom_insert_L, new_user_info_dom. set_unfold. intros x. tauto.
Qed.

Lemma user_info_shape_witness :
  authenticate (Sample.cluster (PList [PStr "dev"]))
    (Sample.hub {[ Sample.dev ]} ∅) Sample.callback fresh
  = (Ok (Some (new_user_info (PStr "alice") Sample.token
                 (Sample.alice (PList [PStr "dev"])))),
     mkState true
       [EvFetch (token_request_with (Sample.hub {[ Sample.dev ]} ∅) true
                   (token_url_with (Sample.hub {[ Sample.dev ]} ∅) "c0de"));
        EvFetch (userdata_request (Sample.hub {[ Sample.dev ]} ∅) Sample.token)])
  ∧ dom (new_user_info (PStr "alice") Sample.token
           (Sample.alice (PList [PStr "dev"])))
    ⊆ {[ "name"; "auth_state"; "admin" ]}.
Proof.
  assert (Hrun : authenticate (Sample.cluster (PList [PStr "dev"]))
                   (Sample.hub {[ Sample.dev ]} ∅) Sample.callback fresh
                 = (Ok (Some (new_user_info (PStr "alice") Sample.token
                                (Sample.alice (PList [PStr "dev"])))),
                    mkState true
                      [EvFetch (token_request_with (Sample.hub {[ Sample.dev ]} ∅) true
                                  (token_url_with (Sample.hub {[ Sample.dev ]} ∅) "c0de"));
                       EvFetch (userdata_request (Sample.hub {[ Sample.dev ]} ∅)
                                  Sample.token)]))
    by (vm_compute; reflexivity).
  split; [exact Hrun|].
  destruct (user_info_shape _ _ _ _ _ _ Hrun)
    as (code & resp & tok & s1 & ocp & username
        & Hc & Hx & Ht & Hw & Hn & Hname & Hauth & Hadm & Hdom).
  exact Hdom.
Defined.

(** ** The admin entry *)

Lemma authenticate_admin_entry w self handler s user_info s' :
  authenticate w self handler s = (Ok (Some user_info), s') →
  if set_bool (admin_groups self) then
    ∃ ug, user_groups_of user_info = Ok ug
          ∧ user_in_groups ug (admin_groups self)
            || user_in_groups ug (allowed_groups self) = true
          ∧ user_info !! "admin"
            = Some (PBool (user_in_groups ug (admin_groups self)))
  else user_info !! "admin" = None.
Proof.
  intros Hrun.
  destruct (authenticate_ok_inv _ _ _ _ _ _ Hrun)
    as (code & resp & tok & s1 & _ & _ & _ & Hlook).
  destruct (lookup_some_inv _ _ _ _ _ _ Hlook)
    as (ocp & username & _ & _ & _ & Hcase).
  destruct (set_bool (admin_groups self)).
  - destruct Hcase as (ug & Hg & Hin & ->). exists ug.
    rewrite user_groups_of_admin, lookup_insert_eq. done.
  - destruct (set_bool (allowed_groups self)).
    + destruct Hcase as (ug & _ & _ & ->). reflexivity.
    + subst user_info. reflexivity.
Qed.

(** C10. In the record of a successful authentication the ['admin'] key is
    present iff [admin_groups] is configured.  Its value is then what
    [user_in_groups] says of the user's groups and [admin_groups]: a user let
    in through [allowed_groups] alone gets [False].  Without [admin_groups]
    there is no ['admin'] key. *)
Theorem admin_key_iff_admin_groups w self handler s user_info s' :
  authenticate w self handler s = (Ok (Some user_info), s') →
  (is_Some (user_info !! "admin") ↔ admin_groups self ≠ ∅)
  ∧ (admin_groups self ≠ ∅ →
     ∃ ug, user_groups_of user_info = Ok ug
           ∧ user_info !! "admin"
             = Some (PBool (user_in_groups ug (admin_groups self)))
           ∧ (user_in_groups ug (admin_groups self) = false →
              user_in_groups ug (allowed_groups self) = true
              ∧ user_info !! "admin" = Some (PBool false)))
  ∧ (admin_groups self = ∅ → user_info !! "admin" = None).
Proof.
  intros Hrun. pose proof (authenticate_admin_entry _ _ _ _ _ _ Hrun) as Hadm.
  destruct (set_bool (admin_groups self)) eqn:Hset.
  - apply set_bool_true in Hset.
    destruct Hadm as (ug & Hg & Hin & Hval). split; [|split].
    + split; [done|]. intros _. rewrite Hval. eauto.
    + intros _. exists ug. split; [done|]. split; [done|].
      intros Hno. rewrite Hno in Hin, Hval. done.
    + intros Hempty. done.
  - apply set_bool_false in Hset. split; [|split].
    + rewrite Hadm. split; [intros [? ?]; discriminate|done].
    + done.
    + done.
Qed.

Lemma admin_key_iff_admin_groups_witness :
  authenticate (Sample.cluster (PList [PStr "dev"]))
    (Sample.hub {[ Sample.dev ]} {[ Sample.ops ]}) Sample.callback fresh
  = (Ok (Some (<["admin" := PBool false]>
                 (new_user_info (PStr "alice") Sample.token
                    (Sample.alice (PList [PStr "dev"]))))),
     mkState true
       [EvFetch (token_request_with (Sample.hub {[ Sample.dev ]} {[ Sample.ops ]})
                   true
                   (token_url_with (Sample.hub {[ Sample.dev ]} {[ Sample.ops ]})
                      "c0de"));
        EvFetch (userdata_request (Sample.hub {[ Sample.dev ]} {[ Sample.ops ]})
                   Sample.token)])
  ∧ (is_Some ((<["admin" := PBool false]>
                 (new_user_info (PStr "alice") Sample.token
                    (Sample.alice (PList [PStr "dev"])))) !! "admin")
     ↔ admin_groups (Sample.hub {[ Sample.dev ]} {[ Sample.ops ]}) ≠ ∅).
Proof.
  assert (Hrun : authenticate (Sample.cluster (PList [PStr "dev"]))
                   (Sample.hub {[ Sample.dev ]} {[ Sample.ops ]})
                   Sample.callback fresh
                 = (Ok (Some (<["admin" := PBool false]>
                                (new_user_info (PStr "alice") Sample.token
                                   (Sample.alice (PList [PStr "dev"]))))),
                    mkState true
                      [EvFetch (token_request_with
                                  (Sample.hub {[ Sample.dev ]} {[ Sample.ops ]}) true
                                  (token_url_with
                                     (Sample.hub {[ Sample.dev ]} {[ Sample.ops ]})
                                     "c0de"));
                       EvFetch (userdata_request
                                  (Sample.hub {[ Sample.dev ]} {[ Sample.ops ]})
                                  Sample.token)]))
    by (vm_compute; reflexivity).
  split; [exact Hrun|].
  exact (proj1 (admin_key_iff_admin_groups _ _ _ _ _ _ Hrun)).
Defined.

(** The admin entry the code computes, in terms of [user_in_groups]: when an
    authentication succeeds with [admin_groups] configured, ['admin'] is
    [True] iff [any] finds a true element common to the user's groups and
    [admin_groups]. *)
Lemma admin_status_iff_truthy_common w self handler s user_info s' :
  authenticate w self handler s = (Ok (Some user_info), s') →
  admin_groups self ≠ ∅ →
  ∃ ug b, user_groups_of user_info = Ok ug
          ∧ user_info !! "admin" = Some (PBool b)
          ∧ (b = true ↔ share_truthy ug (admin_groups self)).
Proof.
  intros Hrun Hne. pose proof (authenticate_admin_entry _ _ _ _ _ _ Hrun) as Hadm.
  apply set_bool_true in Hne. rewrite Hne in Hadm.
  destruct Hadm as (ug & Hg & _ & Hval).
  exists ug, (user_in_groups ug (admin_groups self)).
  split; [done|]. split; [done|]. apply user_in_groups_true.
Qed.

(** Away from the empty group name the admin status is as specified: when
    no name in [admin_groups] is empty (or otherwise false for Python), the
    ['admin'] entry of a successful authentication is [True] iff the user's
    groups intersect [admin_groups]. *)
Lemma admin_status_as_claimed w self handler s user_info s' :
  (∀ x, x ∈ admin_groups self → truthy x = true) →
  authenticate w self handler s = (Ok (Some user_info), s') →
  admin_groups self ≠ ∅ →
  ∃ ug b, user_groups_of user_info = Ok ug
          ∧ user_info !! "admin" = Some (PBool b)
          ∧ (b = true ↔ intersects ug (admin_groups self)).
Proof.
  intros Hall Hrun Hne.
  destruct (admin_status_iff_truthy_common _ _ _ _ _ _ Hrun Hne)
    as (ug & b & Hg & Hval & Hiff).
  exists ug, b. split; [exact Hg|]. split; [exact Hval|].
  rewrite <- (share_truthy_iff_intersects ug _ Hall). exact Hiff.
Qed.

Lemma admin_status_as_claimed_witness :
  (∀ x, x ∈ admin_groups (Sample.hub {[ Sample.dev ]} {[ Sample.ops ]}) →
        truthy x = true)
  ∧ authenticate (Sample.cluster (PList [PStr "ops"; PStr "qa"]))
      (Sample.hub {[ Sample.dev ]} {[ Sample.ops ]}) Sample.callback fresh
    = (Ok (Some (<["admin" := PBool true]>
                   (new_user_info (PStr "alice") Sample.token
                      (Sample.alice (PList [PStr "ops"; PStr "qa"]))))),
       mkState true
         [EvFetch (token_request_with (Sample.hub {[ Sample.dev ]} {[ Sample.ops ]})
                     true
                     (token_url_with (Sample.hub {[ Sample.dev ]} {[ Sample.ops ]})
                        "c0de"));
          EvFetch (userdata_request (Sample.hub {[ Sample.dev ]} {[ Sample.ops ]})
                     Sample.token)])
  ∧ admin_groups (Sample.hub {[ Sample.dev ]} {[ Sample.ops ]}) ≠ ∅
  ∧ ∃ ug b,
      user_groups_of (<["admin" := PBool true]>
                        (new_user_info (PStr "alice") Sample.token
                           (Sample.alice (PList [PStr "ops"; PStr "qa"]))))
      = Ok ug
      ∧ (<["admin" := PBool true]>
           (new_user_info (PStr "alice") Sample.token
              (Sample.alice (PList [PStr "ops"; PStr "qa"])))) !! "admin"
        = Some (PBool b)
      ∧ (b = true
         ↔ intersects ug
             (admin_groups (Sample.hub {[ Sample.dev ]} {[ Sample.ops ]}))).
Proof.
  assert (Hall : ∀ x, x ∈ admin_groups (Sample.hub {[ Sample.dev ]} {[ Sample.ops ]}) →
                      truthy x = true).
  { intros x Hx. simpl in Hx. apply elem_of_singleton in Hx. subst x.
    reflexivity. }
  assert (Hrun : authenticate (Sample.cluster (PList [PStr "ops"; PStr "qa"]))
                   (Sample.hub {[ Sample.dev ]} {[ Sample.ops ]})
                   Sample.callback fresh
                 = (Ok (Some (<["admin" := PBool true]>
                                (new_user_info (PStr "alice") Sample.token
                                   (Sample.alice (PList [PStr "ops"; PStr "qa"]))))),
                    mkState true
                      [EvFetch (token_request_with
                                  (Sample.hub {[ Sample.dev ]} {[ Sample.ops ]}) true
                                  (token_url_with
                                     (Sample.hub {[ Sample.dev ]} {[ Sample.ops ]})
                                     "c0de"));
                       EvFetch (userdata_request
                                  (Sample.hub {[ Sample.dev ]} {[ Sample.ops ]})
                                  Sample.token)]))
    by (vm_compute; reflexivity).
  assert (Hne : admin_groups (Sample.hub {[ Sample.dev ]} {[ Sample.ops ]}) ≠ ∅)
    by (apply set_bool_true; vm_compute; reflexivity).
  split; [exact Hall|]. split; [exact Hrun|]. split; [exact Hne|].
  exact (admin_status_as_claimed _ _ _ _ _ _ Hall Hrun Hne).
Defined.

(** C2.  The code at the input that breaks the claim: with
    [admin_groups = {''}] and [allowed_groups = {'dev'}], a user in the groups
    [''] and ['dev'] is let in; their groups intersect [admin_groups], so
    admin status is due, but [any] is false of [''] and ['admin'] is set to
    [False]. *)
Theorem admin_status_fails_on_empty_name :
  authenticate (Sample.cluster (PList [PStr ""; PStr "dev"]))
    (Sample.hub {[ Sample.dev ]} {[ HStr "" ]}) Sample.callback fresh
  = (Ok (Some (<["admin" := PBool false]>
                 (new_user_info (PStr "alice") Sample.token
                    (Sample.alice (PList [PStr ""; PStr "dev"]))))),
     mkState true
       [EvFetch (token_request_with (Sample.hub {[ Sample.dev ]} {[ HStr "" ]})
                   true
                   (token_url_with (Sample.hub {[ Sample.dev ]} {[ HStr "" ]})
                      "c0de"));
        EvFetch (userdata_request (Sample.hub {[ Sample.dev ]} {[ HStr "" ]})
                   Sample.token)])
  ∧ admin_groups (Sample.hub {[ Sample.dev ]} {[ HStr "" ]}) ≠ ∅
  ∧ py_set (PList [PStr ""; PStr "dev"]) = Ok {[ HStr ""; Sample.dev ]}
  ∧ intersects {[ HStr ""; Sample.dev ]}
      (admin_groups (Sample.hub {[ Sample.dev ]} {[ HStr "" ]}))
  ∧ ¬ ((<["admin" := PBool false]>
          (new_user_info (PStr "alice") Sample.token
             (Sample.alice (PList [PStr ""; PStr "dev"])))) !! "admin"
       = Some (PBool true)
       ↔ intersects {[ HStr ""; Sample.dev ]}
           (admin_groups (Sample.hub {[ Sample.dev ]} {[ HStr "" ]}))).
Proof.
  assert (Hint : intersects {[ HStr ""; Sample.dev ]}
                   (admin_groups (Sample.hub {[ Sample.dev ]} {[ HStr "" ]}))).
  { unfold intersects. simpl. intros H.
    apply (f_equal (λ s : gset hashable, bool_decide (HStr "" ∈ s))) in H.
    vm_compute in H. discriminate. }
  split; [vm_compute; reflexivity|].
  split; [apply set_bool_true; vm_compute; reflexivity|].
  split; [vm_compute; reflexivity|].
  split; [exact Hint|].
  intros [_ Hback]. specialize (Hback Hint).
  rewrite lookup_insert_eq in Hback. discriminate.
Qed.

(** ** Users of the allowed groups only *)

(** C7, amended.  When the token exchange gives an access token and the
    user-info endpoint a named user whose groups share a non-empty name with
    [allowed_groups] and do not intersect [admin_groups], authentication
    succeeds; the record has no ['admin'] key if [admin_groups] is not
    configured, and ['admin'] set to [False] if it is. *)
Theorem allowed_only_user w self handler code resp access_token s s1
    ocp_user username groups ug :
  get_argument handler "code" = Some code →
  token_exchange w self (token_url_with self code) s = (Ok resp, s1) →
  getitem resp "access_token" = Ok access_token →
  w (trace s1) (userdata_request self access_token) = Ok ocp_user →
  username_of ocp_user = Ok username →
  getitem ocp_user "groups" = Ok groups →
  py_set groups = Ok ug →
  share_truthy ug (allowed_groups self) →
  ¬ intersects ug (admin_groups self) →
  ∃ user_info,
    authenticate w self handler s
    = (Ok (Some user_info), after s1 [EvFetch (userdata_request self access_token)])
    ∧ user_info !! "name" = Some username
    ∧ user_info !! "admin"
      = if set_bool (admin_groups self) then Some (PBool false) else None.
Proof.
  intros Hc Hx Ht Hw Hn Hgr Hset Hal Had.
  rewrite (authenticate_run _ _ _ _ _ Hc), Hx, Ht.
  rewrite (lookup_run _ _ _ _ _ _ Hw Hn).
  assert (Hg : user_groups_of (new_user_info username access_token ocp_user) = Ok ug).
  { rewrite user_groups_of_new, Hgr. exact Hset. }
  assert (Hname : dict_getitem (new_user_info username access_token ocp_user) "name"
                  = Ok username) by reflexivity.
  rewrite (add_group_info_run _ _ _ _ _ Hg Hname).
  assert (Hno : user_in_groups ug (admin_groups self) = false).
  { apply user_in_groups_false. intros Hsh.
    exact (Had (share_truthy_intersects _ _ Hsh)). }
  apply user_in_groups_true in Hal. rewrite Hal, Hno. simpl.
  assert (Hcfg : set_bool (allowed_groups self) = true).
  { apply set_bool_true. intros Hempty. rewrite Hempty in Hal.
    rewrite user_in_groups_empty_r in Hal. discriminate. }
  rewrite Hcfg. simpl.
  destruct (set_bool (admin_groups self)); eexists; split; try reflexivity.
  - rewrite lookup_insert_ne by done. rewrite lookup_insert_eq. done.
  - done.
Qed.

Lemma allowed_only_user_witness :
  token_exchange (Sample.cluster (PList [PStr "dev"; PStr "qa"]))
    (Sample.hub {[ Sample.dev ]} {[ Sample.ops ]})
    (token_url_with (Sample.hub {[ Sample.dev ]} {[ Sample.ops ]}) "c0de") fresh
  = (Ok Sample.token_response,
     after fresh
       [EvFetch (token_request_with (Sample.hub {[ Sample.dev ]} {[ Sample.ops ]})
                   true
                   (token_url_with (Sample.hub {[ Sample.dev ]} {[ Sample.ops ]})
                      "c0de"))])
  ∧ py_set (PList [PStr "dev"; PStr "qa"]) = Ok {[ Sample.dev; HStr "qa" ]}
  ∧ share_truthy {[ Sample.dev; HStr "qa" ]} {[ Sample.dev ]}
  ∧ ¬ intersects {[ Sample.dev; HStr "qa" ]} {[ Sample.ops ]}
  ∧ ∃ user_info,
      fst (authenticate (Sample.cluster (PList [PStr "dev"; PStr "qa"]))
             (Sample.hub {[ Sample.dev ]} {[ Sample.ops ]}) Sample.callback fresh)
      = Ok (Some user_info)
      ∧ user_info !! "name" = Some (PStr "alice")
      ∧ user_info !! "admin" = Some (PBool false).
Proof.
  assert (Hal : share_truthy {[ Sample.dev; HStr "qa" ]} {[ Sample.dev ]})
    by (apply user_in_groups_true; vm_compute; reflexivity).
  assert (Had : ¬ intersects {[ Sample.dev; HStr "qa" ]} {[ Sample.ops ]})
    by (unfold intersects; intros H; apply H; vm_compute; reflexivity).
  split; [vm_compute; reflexivity|]. split; [vm_compute; reflexivity|].
  split; [exact Hal|]. split; [exact Had|].
  destruct (allowed_only_user
              (Sample.cluster (PList [PStr "dev"; PStr "qa"]))
              (Sample.hub {[ Sample.dev ]} {[ Sample.ops ]})
              Sample.callback "c0de" Sample.token_response Sample.token fresh
              (after fresh
                 [EvFetch (token_request_with
                             (Sample.hub {[ Sample.dev ]} {[ Sample.ops ]}) true
                             (token_url_with
                                (Sample.hub {[ Sample.dev ]} {[ Sample.ops ]})
                                "c0de"))])
              (Sample.alice (PList [PStr "dev"; PStr "qa"])) (PStr "alice")
              (PList [PStr "dev"; PStr "qa"]) {[ Sample.dev; HStr "qa" ]}
              eq_refl eq_refl eq_refl eq_refl eq_refl eq_refl eq_refl Hal Had)
    as (user_info & Hrun & Hname & Hadm).
  exists user_info. rewrite Hrun. split; [reflexivity|]. split; [exact Hname|].
  exact Hadm.
Defined.

(** C7 as stated fails twice over.  With [allowed_groups = {'dev'}] and
    [admin_groups = {'ops'}], a user of ['dev'] is let in, but the record does
    carry an ['admin'] entry ([False]): that is how the code means it.  With
    [allowed_groups = {''}] and no [admin_groups], a user whose only group is
    [''] has groups that intersect [allowed_groups], and is turned away: that
    is the [any] of [user_in_groups] again, as under C1. *)
Lemma allowed_only_user_counterexample :
  (intersects {[ Sample.dev ]}
     (allowed_groups (Sample.hub {[ Sample.dev ]} {[ Sample.ops ]}))
   ∧ ¬ intersects {[ Sample.dev ]}
         (admin_groups (Sample.hub {[ Sample.dev ]} {[ Sample.ops ]}))
   ∧ py_set (PList [PStr "dev"]) = Ok {[ Sample.dev ]}
   ∧ ∃ user_info,
       fst (authenticate (Sample.cluster (PList [PStr "dev"]))
              (Sample.hub {[ Sample.dev ]} {[ Sample.ops ]}) Sample.callback fresh)
       = Ok (Some user_info)
       ∧ user_info !! "admin" = Some (PBool false)
       ∧ "admin" ∈ dom user_info)
  ∧ (intersects {[ HStr "" ]} (allowed_groups (Sample.hub {[ HStr "" ]} ∅))
     ∧ ¬ intersects {[ HStr "" ]} (admin_groups (Sample.hub {[ HStr "" ]} ∅))
     ∧ py_set (PList [PStr ""]) = Ok {[ HStr "" ]}
     ∧ fst (authenticate (Sample.cluster (PList [PStr ""]))
              (Sample.hub {[ HStr "" ]} ∅) Sample.callback fresh)
       = Ok None).
Proof.
  assert (Hself : ∀ x : hashable, intersects {[ x ]} {[ x ]}).
  { intros x. unfold intersects. intros H.
    assert (Hx : x ∈ ({[ x ]} : gset hashable) ∩ {[ x ]})
      by (apply elem_of_intersection; split; apply elem_of_singleton; reflexivity).
    rewrite H in Hx. exact (not_elem_of_empty x Hx). }
  split.
  - split; [apply Hself|].
    split; [unfold intersects; intros H; apply H; vm_compute; reflexivity|].
    split; [vm_compute; reflexivity|].
    exists (<["admin" := PBool false]>
              (new_user_info (PStr "alice") Sample.token
                 (Sample.alice (PList [PStr "dev"])))).
    split; [vm_compute; reflexivity|].
    split; [apply lookup_insert_eq|].
    apply elem_of_dom. rewrite lookup_insert_eq. eauto.
  - split; [apply Hself|].
    split; [unfold intersects; intros H; apply H; vm_compute; reflexivity|].
    split; vm_compute; reflexivity.
Qed.

(** * Further properties *)

(** ** Membership, as a relation between two sets *)

(** X1.  [user_in_groups] does not care which set is the user's and which the
    configured one; it is false as soon as one of them is empty; and it stays
    true when either set grows. *)
Theorem user_in_groups_algebra (a b a' b' : gset hashable) :
  user_in_groups a b = user_in_groups b a
  ∧ user_in_groups ∅ b = false
  ∧ user_in_groups a ∅ = false
  ∧ (a ⊆ a' → b ⊆ b' →
     user_in_groups a b = true → user_in_groups a' b' = true).
Proof.
  split; [|split; [|split]].
  - destruct (user_in_groups b a) eqn:Hba.
    + apply user_in_groups_true in Hba. apply user_in_groups_true.
      destruct Hba as (x & Hb & Ha & Ht). exists x. done.
    + apply user_in_groups_false in Hba. apply user_in_groups_false.
      intros (x & Ha & Hb & Ht). apply Hba. exists x. done.
  - apply user_in_groups_false. intros (x & Hx & _).
    exact (not_elem_of_empty x Hx).
  - apply user_in_groups_empty_r.
  - intros Ha Hb Hin. apply user_in_groups_true in Hin.
    apply user_in_groups_true. destruct Hin as (x & Hxa & Hxb & Ht).
    exists x. split; [apply Ha, Hxa|]. split; [apply Hb, Hxb|done].
Qed.

Lemma user_in_groups_algebra_witness :
  ({[ Sample.dev ]} : gset hashable) ⊆ {[ Sample.dev; HStr "qa" ]}
  ∧ user_in_groups {[ Sample.dev ]} {[ Sample.dev ]} = true
  ∧ user_in_groups {[ Sample.dev; HStr "qa" ]} {[ Sample.dev ]} = true.
Proof.
  assert (Hsub : ({[ Sample.dev ]} : gset hashable) ⊆ {[ Sample.dev; HStr "qa" ]})
    by apply union_subseteq_l.
  assert (Hin : user_in_groups {[ Sample.dev ]} {[ Sample.dev ]} = true)
    by (vm_compute; reflexivity).
  split; [exact Hsub|]. split; [exact Hin|].
  exact (proj2 (proj2 (proj2 (user_in_groups_algebra
           {[ Sample.dev ]} {[ Sample.dev ]}
           {[ Sample.dev; HStr "qa" ]} {[ Sample.dev ]})))
           Hsub (reflexivity _) Hin).
Defined.

(** ** What a lookup leaves behind *)

Lemma add_group_info_shape self user_info username s :
  dict_getitem user_info "name" = Ok username →
  let r := _add_openshift_group_info self user_info s in
  snd r = s
  ∨ (fst r = Ok None ∧ snd r = after s [EvWarning (denial_message username)]).
Proof.
  intros Hn r. subst r.
  destruct (user_groups_of user_info) as [ug|e] eqn:Hg.
  - rewrite (add_group_info_run _ _ _ _ _ Hg Hn).
    destruct (set_bool (admin_groups self)),
             (user_in_groups ug (admin_groups self)),
             (user_in_groups ug (allowed_groups self)); simpl; auto.
  - rewrite (add_group_info_raise _ _ _ _ _ Hn Hg). auto.
Qed.

Lemma lookup_shape w self access_token s :
  snd (_get_openshift_user_info w self access_token s)
  = after s [EvFetch (userdata_request self access_token)]
  ∨ ∃ username,
      fst (_get_openshift_user_info w self access_token s) = Ok None
      ∧ snd (_get_openshift_user_info w self access_token s)
        = after s [EvFetch (userdata_request self access_token);
                   EvWarning (denial_message username)].
Proof.
  destruct (w (trace s) (userdata_request self access_token)) as [ocp|e] eqn:Hw.
  2:{ rewrite (lookup_run_raise _ _ _ _ _ Hw). left. reflexivity. }
  destruct (username_of ocp) as [username|e] eqn:Hn.
  2:{ rewrite (lookup_run_noname _ _ _ _ _ _ Hw Hn). left. reflexivity. }
  rewrite (lookup_run _ _ _ _ _ _ Hw Hn).
  destruct (set_bool (allowed_groups self) || set_bool (admin_groups self));
    [|left; reflexivity].
  assert (Hname : dict_getitem (new_user_info username access_token ocp) "name"
                  = Ok username) by reflexivity.
  destruct (add_group_info_shape self _ username
              (after s [EvFetch (userdata_request self access_token)]) Hname)
    as [Hsame|[Hnone Hwarn]].
  - left. exact Hsame.
  - right. exists username. split; [exact Hnone|]. rewrite Hwarn.
    unfold after. simpl. rewrite <- app_assoc. reflexivity.
Qed.

Lemma lookup_flag w self access_token s :
  use_ca_certs_for_token_request (snd (_get_openshift_user_info w self access_token s))
  = use_ca_certs_for_token_request s.
Proof.
  destruct (lookup_shape w self access_token s) as [->|(username & _ & ->)];
    reflexivity.
Qed.

(** X2.  The lookup makes one request, the GET of the user with the [ca_certs]
    bundle and the token as bearer, whatever the flag says, and leaves the
    flag alone.  The only other thing it may do is log the warning of a
    denial, and then it returns [None]. *)
Theorem lookup_footprint w self access_token s :
  let r := _get_openshift_user_info w self access_token s in
  let req := userdata_request self access_token in
  req_ca_certs req = ca_certs self
  ∧ req_method req = "GET"
  ∧ use_ca_certs_for_token_request (snd r) = use_ca_certs_for_token_request s
  ∧ (snd r = after s [EvFetch req]
     ∨ ∃ username,
         fst r = Ok None
         ∧ snd r = after s [EvFetch req; EvWarning (denial_message username)]).
Proof.
  intros r req. subst r req. split; [reflexivity|]. split; [reflexivity|].
  split; [apply lookup_flag|apply lookup_shape].
Qed.

(** X3.  A lookup returns [None] for one of two reasons, and the trace tells
    which: the endpoint answered with an HTTP error of status 401, and nothing
    is logged; or it answered with a named user whose groups have no true
    element in common with either configured set, one of which is configured,
    and the denial is logged as a warning. *)
Theorem lookup_none_causes w self access_token s s' :
  _get_openshift_user_info w self access_token s = (Ok None, s') →
  (∃ e, w (trace s) (userdata_request self access_token) = Raise e
        ∧ is_HTTPError e = true ∧ exn_code e = 401%Z
        ∧ s' = after s [EvFetch (userdata_request self access_token)])
  ∨ (∃ ocp username ug,
       w (trace s) (userdata_request self access_token) = Ok ocp
       ∧ username_of ocp = Ok username
       ∧ (groups ← getitem ocp "groups"; py_set groups) = Ok ug
       ∧ (allowed_groups self ≠ ∅ ∨ admin_groups self ≠ ∅)
       ∧ ¬ share_truthy ug (admin_groups self)
       ∧ ¬ share_truthy ug (allowed_groups self)
       ∧ s' = after s [EvFetch (userdata_request self access_token);
                       EvWarning (denial_message username)]).
Proof.
  intros Hrun.
  destruct (w (trace s) (userdata_request self access_token)) as [ocp|e] eqn:Hw.
  2:{ rewrite (lookup_run_raise _ _ _ _ _ Hw) in Hrun. left. exists e.
      split; [reflexivity|].
      destruct (is_HTTPError e); simpl in Hrun; [|discriminate].
      destruct (exn_code e =? 401)%Z eqn:Hc; [|discriminate].
      apply Z.eqb_eq in Hc. injection Hrun as <-. done. }
  destruct (username_of ocp) as [username|e] eqn:Hn.
  2:{ rewrite (lookup_run_noname _ _ _ _ _ _ Hw Hn) in Hrun. discriminate. }
  rewrite (lookup_run _ _ _ _ _ _ Hw Hn) in Hrun.
  destruct (set_bool (allowed_groups self) || set_bool (admin_groups self))
    eqn:Hcfg; [|discriminate].
  assert (Hname : dict_getitem (new_user_info username access_token ocp) "name"
                  = Ok username) by reflexivity.
  destruct (user_groups_of (new_user_info username access_token ocp))
    as [ug|e] eqn:Hg.
  2:{ rewrite (add_group_info_raise _ _ _ _ _ Hname Hg) in Hrun. discriminate. }
  rewrite (add_group_info_run _ _ _ _ _ Hg Hname) in Hrun.
  right. exists ocp, username, ug. split; [reflexivity|]. split; [exact Hn|].
  split; [rewrite user_groups_of_new in Hg; exact Hg|].
  split.
  { apply orb_true_iff in Hcfg. destruct Hcfg as [H|H];
      apply set_bool_true in H; auto. }
  rewrite <- !user_in_groups_false.
  destruct (set_bool (admin_groups self)) eqn:Had.
  - destruct (user_in_groups ug (admin_groups self)),
             (user_in_groups ug (allowed_groups self));
      simpl in Hrun; try discriminate.
    injection Hrun as <-. split; [reflexivity|]. split; [reflexivity|].
    unfold after. simpl. rewrite <- app_assoc. reflexivity.
  - apply set_bool_false in Had. rewrite Had, user_in_groups_empty_r.
    destruct (user_in_groups ug (allowed_groups self)); [discriminate|].
    injection Hrun as <-. split; [reflexivity|]. split; [reflexivity|].
    unfold after. simpl. rewrite <- app_assoc. reflexivity.
Qed.

Lemma lookup_none_causes_witness :
  _get_openshift_user_info (Sample.cluster (PList [PStr "qa"]))
    (Sample.hub {[ Sample.dev ]} ∅) Sample.token fresh
  = (Ok None,
     after fresh
       [EvFetch (userdata_request (Sample.hub {[ Sample.dev ]} ∅) Sample.token);
        EvWarning (denial_message (PStr "alice"))])
  ∧ ¬ share_truthy {[ HStr "qa" ]} {[ Sample.dev ]}.
Proof.
  assert (Hrun : _get_openshift_user_info (Sample.cluster (PList [PStr "qa"]))
                   (Sample.hub {[ Sample.dev ]} ∅) Sample.token fresh
                 = (Ok None,
                    after fresh
                      [EvFetch (userdata_request (Sample.hub {[ Sample.dev ]} ∅)
                                  Sample.token);
                       EvWarning (denial_message (PStr "alice"))]))
    by (vm_compute; reflexivity).
  split; [exact Hrun|].
  destruct (lookup_none_causes _ _ _ _ _ Hrun)
    as [(e & He & _)|(ocp & username & ug & Hw & Hn & Hg & _ & _ & Hal & _)].
  - vm_compute in He. discriminate.
  - vm_compute in Hw. injection Hw as <-. vm_compute in Hg.
    injection Hg as <-. exact Hal.
Defined.

(** ** User objects that cannot be read *)

(** X4.  When a group set is configured and the fetched user has a name but no
    usable [groups] entry, the lookup raises instead of returning [None]:
    [KeyError] when the entry is missing, [TypeError] when it is [null] (or
    any other value [set] cannot take).  Nothing is logged. *)
Theorem lookup_unreadable_groups w self access_token d username s :
  w (trace s) (userdata_request self access_token) = Ok (PDict d) →
  username_of (PDict d) = Ok username →
  allowed_groups self ≠ ∅ ∨ admin_groups self ≠ ∅ →
  let r := _get_openshift_user_info w self access_token s in
  let s' := after s [EvFetch (userdata_request self access_token)] in
  (d !! "groups" = None → r = (Raise (KeyError "groups"), s'))
  ∧ (d !! "groups" = Some PNone → r = (Raise TypeError, s'))
  ∧ (∀ groups e, d !! "groups" = Some groups → py_set groups = Raise e →
       r = (Raise e, s')).
Proof.
  intros Hw Hn Hcfg r s'. subst r s'.
  rewrite (lookup_run _ _ _ _ _ _ Hw Hn).
  assert (Hon : set_bool (allowed_groups self) || set_bool (admin_groups self)
                = true).
  { apply orb_true_iff. destruct Hcfg as [H|H]; apply set_bool_true in H; auto. }
  rewrite Hon.
  assert (Hname : dict_getitem (new_user_info username access_token (PDict d))
                    "name" = Ok username) by reflexivity.
  assert (Hgen : ∀ e, user_groups_of (new_user_info username access_token (PDict d))
                      = Raise e →
                 _add_openshift_group_info self
                   (new_user_info username access_token (PDict d))
                   (after s [EvFetch (userdata_request self access_token)])
                 = (Raise e, after s [EvFetch (userdata_request self access_token)])).
  { intros e He. exact (add_group_info_raise _ _ _ _ _ Hname He). }
  split; [|split].
  - intros Hd. apply Hgen. rewrite user_groups_of_new. simpl. rewrite Hd.
    reflexivity.
  - intros Hd. apply Hgen. rewrite user_groups_of_new. simpl. rewrite Hd.
    reflexivity.
  - intros groups e Hd He. apply Hgen. rewrite user_groups_of_new. simpl.
    rewrite Hd. exact He.
Qed.

Lemma lookup_unreadable_groups_witness :
  _get_openshift_user_info (Edge.cluster_with Edge.groupless)
    (Sample.hub {[ Sample.dev ]} ∅) Sample.token fresh
  = (Raise (KeyError "groups"),
     after fresh
       [EvFetch (userdata_request (Sample.hub {[ Sample.dev ]} ∅) Sample.token)])
  ∧ _get_openshift_user_info (Edge.cluster_with (Sample.alice PNone))
      (Sample.hub {[ Sample.dev ]} ∅) Sample.token fresh
    = (Raise TypeError,
       after fresh
         [EvFetch (userdata_request (Sample.hub {[ Sample.dev ]} ∅)
                     Sample.token)]).
Proof.
  assert (Hcfg : allowed_groups (Sample.hub {[ Sample.dev ]} ∅) ≠ ∅
                 ∨ admin_groups (Sample.hub {[ Sample.dev ]} ∅) ≠ ∅)
    by (left; apply set_bool_true; vm_compute; reflexivity).
  split.
  - exact (proj1 (lookup_unreadable_groups (Edge.cluster_with Edge.groupless)
                    (Sample.hub {[ Sample.dev ]} ∅) Sample.token
                    {["metadata" := PDict {["name" := PStr "bob"]}]} (PStr "bob")
                    fresh eq_refl eq_refl Hcfg) eq_refl).
  - exact (proj1 (proj2 (lookup_unreadable_groups
                    (Edge.cluster_with (Sample.alice PNone))
                    (Sample.hub {[ Sample.dev ]} ∅) Sample.token
                    (<["groups" := PNone]>
                       {["metadata" := PDict {["name" := PStr "alice"]}]})
                    (PStr "alice") fresh eq_refl eq_refl Hcfg)) eq_refl).
Defined.

(** X5.  A fetched user object without [metadata], or whose [metadata] has no
    [name], makes the lookup raise [KeyError] for that key, whether or not any
    group set is configured; the groups are never looked at. *)
Theorem lookup_unnamed_user w self access_token d s :
  w (trace s) (userdata_request self access_token) = Ok (PDict d) →
  let r := _get_openshift_user_info w self access_token s in
  let s' := after s [EvFetch (userdata_request self access_token)] in
  (d !! "metadata" = None → r = (Raise (KeyError "metadata"), s'))
  ∧ (∀ m, d !! "metadata" = Some (PDict m) → m !! "name" = None →
       r = (Raise (KeyError "name"), s')).
Proof.
  intros Hw r s'. subst r s'. split.
  - intros Hd. apply (lookup_run_noname _ _ _ _ _ _ Hw).
    unfold username_of. simpl. rewrite Hd. reflexivity.
  - intros m Hd Hm. apply (lookup_run_noname _ _ _ _ _ _ Hw).
    unfold username_of. simpl. rewrite Hd. simpl. rewrite Hm. reflexivity.
Qed.

Lemma lookup_unnamed_user_witness :
  _get_openshift_user_info (Edge.cluster_with Edge.nameless)
    (Sample.hub {[ Sample.dev ]} ∅) Sample.token fresh
  = (Raise (KeyError "metadata"),
     after fresh
       [EvFetch (userdata_request (Sample.hub {[ Sample.dev ]} ∅) Sample.token)]).
Proof.
  exact (proj1 (lookup_unnamed_user (Edge.cluster_with Edge.nameless)
                  (Sample.hub {[ Sample.dev ]} ∅) Sample.token
                  {["groups" := PList [PStr "dev"]]} fresh eq_refl) eq_refl).
Defined.

(** ** Members of the admin groups *)

(** X6.  A named user whose groups have a true element in common with
    [admin_groups] is let in whatever [allowed_groups] holds, with ['admin']
    set to [True]; nothing is logged. *)
Theorem lookup_admin_member w self access_token ocp username groups ug s :
  w (trace s) (userdata_request self access_token) = Ok ocp →
  username_of ocp = Ok username →
  getitem ocp "groups" = Ok groups →
  py_set groups = Ok ug →
  share_truthy ug (admin_groups self) →
  _get_openshift_user_info w self access_token s
  = (Ok (Some (<["admin" := PBool true]>
                 (new_user_info username access_token ocp))),
     after s [EvFetch (userdata_request self access_token)]).
Proof.
  intros Hw Hn Hgr Hset Had.
  rewrite (lookup_run _ _ _ _ _ _ Hw Hn).
  assert (Hne : set_bool (admin_groups self) = true).
  { apply set_bool_true. intros Hempty. destruct Had as (x & _ & Hx & _).
    rewrite Hempty in Hx. exact (not_elem_of_empty x Hx). }
  rewrite Hne, orb_true_r.
  assert (Hg : user_groups_of (new_user_info username access_token ocp) = Ok ug).
  { rewrite user_groups_of_new, Hgr. exact Hset. }
  assert (Hname : dict_getitem (new_user_info username access_token ocp) "name"
                  = Ok username) by reflexivity.
  rewrite (add_group_info_run _ _ _ _ _ Hg Hname), Hne.
  apply user_in_groups_true in Had. rewrite Had. reflexivity.
Qed.

Lemma lookup_admin_member_witness :
  share_truthy {[ Sample.ops ]} {[ Sample.ops ]}
  ∧ _get_openshift_user_info (Sample.cluster (PList [PStr "ops"]))
      (Sample.hub ∅ {[ Sample.ops ]}) Sample.token fresh
    = (Ok (Some (<["admin" := PBool true]>
                   (new_user_info (PStr "alice") Sample.token
                      (Sample.alice (PList [PStr "ops"]))))),
       after fresh
         [EvFetch (userdata_request (Sample.hub ∅ {[ Sample.ops ]})
                     Sample.token)]).
Proof.
  assert (Had : share_truthy {[ Sample.ops ]} {[ Sample.ops ]})
    by (apply user_in_groups_true; vm_compute; reflexivity).
  split; [exact Had|].
  exact (lookup_admin_member (Sample.cluster (PList [PStr "ops"]))
           (Sample.hub ∅ {[ Sample.ops ]}) Sample.token
           (Sample.alice (PList [PStr "ops"])) (PStr "alice")
           (PList [PStr "ops"]) {[ Sample.ops ]} fresh
           eq_refl eq_refl eq_refl (eq_refl : py_set (PList [PStr "ops"]) = Ok _)
           Had).
Defined.

(** ** Authentications that stop early *)

(** X7.  An exception of the first token request that is not a [CurlError] (an
    HTTP 400 of the OAuth server, say) is raised at once: no retry, no log
    line, the flag as it was. *)
Theorem token_failure_not_retried w self handler code s e :
  get_argument handler "code" = Some code →
  w (trace s) (token_request_with self (use_ca_certs_for_token_request s)
                 (token_url_with self code)) = Raise e →
  is_CurlError e = false →
  authenticate w self handler s
  = (Raise e,
     after s [EvFetch (token_request_with self (use_ca_certs_for_token_request s)
                         (token_url_with self code))]).
Proof.
  intros Hc Hw He. rewrite (authenticate_run _ _ _ _ _ Hc).
  rewrite (token_exchange_first_other _ _ _ _ _ Hw He). reflexivity.
Qed.

Lemma token_failure_not_retried_witness :
  authenticate (Edge.rejecting_cluster 400) (Sample.hub ∅ ∅) Sample.callback fresh
  = (Raise (HTTPError 400),
     after fresh
       [EvFetch (token_request_with (Sample.hub ∅ ∅) true
                   (token_url_with (Sample.hub ∅ ∅) "c0de"))]).
Proof.
  exact (token_failure_not_retried (Edge.rejecting_cluster 400) (Sample.hub ∅ ∅)
           Sample.callback "c0de" fresh (HTTPError 400) eq_refl eq_refl eq_refl).
Defined.

(** X8.  When the token exchange is answered with a document that has no
    ['access_token'] (an OAuth error document, say), [authenticate] raises
    [KeyError]; when the answer is not a JSON object at all, [TypeError].  In
    both cases the user-info endpoint is never asked. *)
Theorem token_response_without_token w self handler code resp s s1 :
  get_argument handler "code" = Some code →
  token_exchange w self (token_url_with self code) s = (Ok resp, s1) →
  (∀ d, resp = PDict d → d !! "access_token" = None →
     authenticate w self handler s = (Raise (KeyError "access_token"), s1))
  ∧ ((∀ d, resp ≠ PDict d) →
     authenticate w self handler s = (Raise TypeError, s1)).
Proof.
  intros Hc Hx. rewrite (authenticate_run _ _ _ _ _ Hc), Hx. split.
  - intros d -> Hd. simpl. rewrite Hd. reflexivity.
  - intros Hnd. destruct resp; try reflexivity. exfalso. exact (Hnd d eq_refl).
Qed.

Lemma token_response_without_token_witness :
  authenticate Edge.refusing_cluster (Sample.hub ∅ ∅) Sample.callback fresh
  = (Raise (KeyError "access_token"),
     after fresh
       [EvFetch (token_request_with (Sample.hub ∅ ∅) true
                   (token_url_with (Sample.hub ∅ ∅) "c0de"))]).
Proof.
  exact (proj1 (token_response_without_token Edge.refusing_cluster
                  (Sample.hub ∅ ∅) Sample.callback "c0de"
                  (PDict {["error" := PStr "invalid_grant"]}) fresh
                  (after fresh
                     [EvFetch (token_request_with (Sample.hub ∅ ∅) true
                                 (token_url_with (Sample.hub ∅ ∅) "c0de"))])
                  eq_refl eq_refl)
           {["error" := PStr "invalid_grant"]} eq_refl eq_refl).
Defined.

(** ** The flag across authentications *)

(** The two ways a token exchange can leave the state. *)
Lemma token_exchange_shape w self url s :
  snd (token_exchange w self url s)
  = after s [EvFetch (token_request_with self
                        (use_ca_certs_for_token_request s) url)]
  ∨ (w (trace s) (token_request_with self (use_ca_certs_for_token_request s) url)
     = Raise CurlError
     ∧ snd (token_exchange w self url s)
       = mkState (negb (use_ca_certs_for_token_request s))
           (trace s
            ++ [EvFetch (token_request_with self
                           (use_ca_certs_for_token_request s) url);
                EvInfo (retry_message (use_ca_certs_for_token_request s));
                EvFetch (token_request_with self
                           (negb (use_ca_certs_for_token_request s)) url)])).
Proof.
  destruct (w (trace s) (token_request_with self
                           (use_ca_certs_for_token_request s) url))
    as [resp|e] eqn:Hw.
  - left. rewrite (token_exchange_first_ok _ _ _ _ _ Hw). reflexivity.
  - destruct (is_CurlError e) eqn:He.
    + apply is_CurlError_true in He. subst e. right. split; [reflexivity|].
      rewrite (token_exchange_retry _ _ _ _ Hw). simpl.
      rewrite <- app_assoc. reflexivity.
    + left. rewrite (token_exchange_first_other _ _ _ _ _ Hw He). reflexivity.
Qed.

(** After the token exchange, [authenticate] ends where the exchange ended
    or where the lookup that follows it ends. *)
Lemma authenticate_end w self handler code s :
  get_argument handler "code" = Some code →
  snd (authenticate w self handler s)
  = snd (token_exchange w self (token_url_with self code) s)
  ∨ ∃ tok,
      snd (authenticate w self handler s)
      = snd (_get_openshift_user_info w self tok
               (snd (token_exchange w self (token_url_with self code) s))).
Proof.
  intros Hc. rewrite (authenticate_run _ _ _ _ _ Hc).
  destruct (token_exchange w self (token_url_with self code) s)
    as [[resp|e] s1]; [|left; reflexivity].
  destruct (getitem resp "access_token") as [tok|e]; [|left; reflexivity].
  right. exists tok. reflexivity.
Qed.

(** The first thing an authentication with a code does is the token request
    with the bundle the flag names. *)
Lemma authenticate_first_request w self handler code s :
  get_argument handler "code" = Some code →
  ∃ rest,
    trace (snd (authenticate w self handler s))
    = trace s
      ++ EvFetch (token_request_with self (use_ca_certs_for_token_request s)
                    (token_url_with self code)) :: rest.
Proof.
  intros Hc.
  assert (Hx : ∃ mid,
             trace (snd (token_exchange w self (token_url_with self code) s))
             = trace s
               ++ EvFetch (token_request_with self
                             (use_ca_certs_for_token_request s)
                             (token_url_with self code)) :: mid).
  { destruct (token_exchange_shape w self (token_url_with self code) s)
      as [->|[_ ->]]; simpl; eexists; reflexivity. }
  destruct Hx as [mid Hmid].
  destruct (authenticate_end w self handler code s Hc) as [->|[tok ->]].
  - exists mid. exact Hmid.
  - destruct (lookup_trace w self tok
                (snd (token_exchange w self (token_url_with self code) s)))
      as [more Hmore].
    rewrite Hmore, Hmid, <- app_assoc. simpl. eexists. reflexivity.
Qed.

(** X9.  An authentication leaves the flag flipped exactly when its first token
    request ended in a [CurlError], whatever happened afterwards.  The flip
    is remembered: the authentication after a retried one opens with the
    bundle the retry used. *)
Theorem retry_is_remembered w self handler code s :
  get_argument handler "code" = Some code →
  let flag := use_ca_certs_for_token_request s in
  let first := token_request_with self flag (token_url_with self code) in
  let s' := snd (authenticate w self handler s) in
  (w (trace s) first ≠ Raise CurlError →
   use_ca_certs_for_token_request s' = flag)
  ∧ (w (trace s) first = Raise CurlError →
     use_ca_certs_for_token_request s' = negb flag
     ∧ ∀ w' handler' code',
         get_argument handler' "code" = Some code' →
         ∃ rest,
           trace (snd (authenticate w' self handler' s'))
           = trace s'
             ++ EvFetch (token_request_with self (negb flag)
                           (token_url_with self code')) :: rest).
Proof.
  intros Hc flag first s'.
  assert (Hflag : use_ca_certs_for_token_request s'
                  = use_ca_certs_for_token_request
                      (snd (token_exchange w self (token_url_with self code) s))).
  { subst s'. destruct (authenticate_end w self handler code s Hc)
      as [->|[tok ->]]; [reflexivity|apply lookup_flag]. }
  split.
  - intros Hno. rewrite Hflag.
    destruct (token_exchange_shape w self (token_url_with self code) s)
      as [->|[Hcurl _]]; [reflexivity|].
    exfalso. exact (Hno Hcurl).
  - intros Hcurl.
    assert (Hflip : use_ca_certs_for_token_request s' = negb flag).
    { rewrite Hflag, (token_exchange_retry _ _ _ _ Hcurl). reflexivity. }
    split; [exact Hflip|].
    intros w' handler' code' Hc'.
    destruct (authenticate_first_request w' self handler' code' s' Hc')
      as [rest Hrest].
    exists rest. rewrite Hrest, Hflip. reflexivity.
Qed.

Lemma retry_is_remembered_witness :
  get_argument Sample.callback "code" = Some "c0de"
  ∧ Sample.picky_cluster (PList []) (trace fresh)
      (token_request_with (Sample.hub ∅ ∅) true
         (token_url_with (Sample.hub ∅ ∅) "c0de")) = Raise CurlError
  ∧ use_ca_certs_for_token_request
      (snd (authenticate (Sample.picky_cluster (PList [])) (Sample.hub ∅ ∅)
              Sample.callback fresh)) = false.
Proof.
  split; [reflexivity|]. split; [reflexivity|].
  exact (proj1 (proj2 (retry_is_remembered (Sample.picky_cluster (PList []))
                         (Sample.hub ∅ ∅) Sample.callback "c0de" fresh eq_refl)
                  eq_refl)).
Defined.

(** ** The requests of one authentication *)

Lemma fetched_app (a b : list event) : fetched (a ++ b) = fetched a ++ fetched b.
Proof. unfold fetched. apply omap_app. Qed.

(** X10.  Without a [code] argument [authenticate] raises and touches nothing.
    With one, what it adds to the trace holds one or two token requests (the
    second only with the other bundle, after a [CurlError]), then at most one
    user lookup, and never a stop. *)
Theorem authenticate_requests w self handler s :
  match get_argument handler "code" with
  | None =>
      authenticate w self handler s = (Raise (MissingArgumentError "code"), s)
  | Some code =>
      let flag := use_ca_certs_for_token_request s in
      let url := token_url_with self code in
      ∃ evs tokens lookups,
        trace (snd (authenticate w self handler s)) = trace s ++ evs
        ∧ fetched evs = tokens ++ lookups
        ∧ stopped evs = []
        ∧ (tokens = [token_request_with self flag url]
           ∨ tokens = [token_request_with self flag url;
                       token_request_with self (negb flag) url])
        ∧ (lookups = [] ∨ ∃ tok, lookups = [userdata_request self tok])
  end.
Proof.
  destruct (get_argument handler "code") as [code|] eqn:Hc;
    [|exact (authenticate_no_code _ _ _ _ Hc)].
  intros flag url.
  assert (Hx : ∃ evs tokens,
             trace (snd (token_exchange w self url s)) = trace s ++ evs
             ∧ fetched evs = tokens ∧ stopped evs = []
             ∧ (tokens = [token_request_with self flag url]
                ∨ tokens = [token_request_with self flag url;
                            token_request_with self (negb flag) url])).
  { destruct (token_exchange_shape w self url s) as [->|[_ ->]]; simpl.
    - eexists _, _. split; [reflexivity|]. split; [reflexivity|].
      split; [reflexivity|]. left. reflexivity.
    - eexists _, _. split; [reflexivity|]. split; [reflexivity|].
      split; [reflexivity|]. right. reflexivity. }
  destruct Hx as (evs & tokens & Htr & Hf & Hst & Htok).
  destruct (authenticate_end w self handler code s Hc) as [->|[tok ->]].
  - exists evs, tokens, []. rewrite app_nil_r. fold url.
    repeat (split; [assumption|]). left. reflexivity.
  - fold url.
    destruct (lookup_shape w self tok (snd (token_exchange w self url s)))
      as [->|(username & _ & ->)]; simpl; rewrite Htr, <- app_assoc.
    + eexists _, tokens, [userdata_request self tok].
      split; [reflexivity|]. rewrite fetched_app, Hf.
      split; [reflexivity|]. split; [|eauto].
      unfold stopped in *. rewrite omap_app, Hst. reflexivity.
    + eexists _, tokens, [userdata_request self tok].
      split; [reflexivity|]. rewrite fetched_app, Hf.
      split; [reflexivity|]. split; [|eauto].
      unfold stopped in *. rewrite omap_app, Hst. reflexivity.
Qed.

(** ** Retrying with the same bundle *)

(** X11.  When [ca_certs] and [system_ca_certs] name the same bundle, the retry
    repeats the first token request unchanged; against a server that answers
    a request the same way each time, it fails as the first did and
    [authenticate] raises the [CurlError] after two identical requests. *)
Theorem retry_with_equal_bundles w self handler code s :
  get_argument handler "code" = Some code →
  ca_certs self = system_ca_certs self →
  (∀ tr tr' req, w tr req = w tr' req) →
  let first := token_request_with self (use_ca_certs_for_token_request s)
                 (token_url_with self code) in
  w (trace s) first = Raise CurlError →
  authenticate w self handler s
  = (Raise CurlError,
     mkState (negb (use_ca_certs_for_token_request s))
       (trace s
        ++ [EvFetch first;
            EvInfo (retry_message (use_ca_certs_for_token_request s));
            EvFetch first])).
Proof.
  intros Hc Heq Hstable first Hw.
  assert (Hsame : token_request_with self
                    (negb (use_ca_certs_for_token_request s))
                    (token_url_with self code) = first).
  { subst first. unfold token_request_with.
    destruct (use_ca_certs_for_token_request s); simpl; rewrite Heq;
      reflexivity. }
  rewrite (authenticate_run _ _ _ _ _ Hc).
  rewrite (token_exchange_retry _ _ _ _ Hw). fold first. rewrite Hsame.
  rewrite (Hstable _ (trace s) first), Hw, <- app_assoc. reflexivity.
Qed.

Lemma retry_with_equal_bundles_witness :
  ca_certs (mkAuthenticator "jupyterhub" "s3cret"
              "https://oauth.apps.example/oauth/token"
              "https://api.example:6443/apis/user.openshift.io/v1/users/~"
              false "" "" ∅ ∅) = ""
  ∧ fst (authenticate Sample.dead_cluster
           (mkAuthenticator "jupyterhub" "s3cret"
              "https://oauth.apps.example/oauth/token"
              "https://api.example:6443/apis/user.openshift.io/v1/users/~"
              false "" "" ∅ ∅) Sample.callback fresh) = Raise CurlError.
Proof.
  split; [reflexivity|].
  rewrite (retry_with_equal_bundles Sample.dead_cluster
             (mkAuthenticator "jupyterhub" "s3cret"
                "https://oauth.apps.example/oauth/token"
                "https://api.example:6443/apis/user.openshift.io/v1/users/~"
                false "" "" ∅ ∅) Sample.callback "c0de" fresh
             eq_refl eq_refl (λ _ _ _, eq_refl) eq_refl).
  reflexivity.
Defined.

(** ** Refresh, at the edges *)

(** X12.  When the stored auth state has no access token to give ([None] because
    auth state is not kept, or a dict without the key), [refresh_user] raises
    [TypeError], respectively [KeyError], before anything is requested; the
    user is not stopped. *)
Theorem refresh_user_without_token w self user s :
  (get_auth_state user = PNone →
   refresh_user w self user s = (Raise TypeError, s))
  ∧ (∀ d, get_auth_state user = PDict d → d !! "access_token" = None →
       refresh_user w self user s = (Raise (KeyError "access_token"), s)).
Proof.
  split.
  - intros Hau. unfold refresh_user. unfold_run. rewrite Hau. reflexivity.
  - intros d Hau Hd. unfold refresh_user. unfold_run. rewrite Hau. simpl.
    rewrite Hd. reflexivity.
Qed.

Lemma refresh_user_without_token_witness :
  get_auth_state Edge.forgotten_user = PNone
  ∧ refresh_user (Sample.cluster (PList [])) (Sample.hub ∅ ∅)
      Edge.forgotten_user fresh = (Raise TypeError, fresh).
Proof.
  split; [reflexivity|].
  exact (proj1 (refresh_user_without_token (Sample.cluster (PList []))
                  (Sample.hub ∅ ∅) Edge.forgotten_user fresh) eq_refl).
Defined.

(** X13.  A refresh with a stored token makes exactly one request, the user lookup
    with that token; it never asks the token endpoint and never touches the
    flag; and it stops the user, once, exactly when it returns [None]. *)
Theorem refresh_user_footprint w self user access_token s :
  getitem (get_auth_state user) "access_token" = Ok access_token →
  let r := refresh_user w self user s in
  ∃ evs,
    trace (snd r) = trace s ++ evs
    ∧ use_ca_certs_for_token_request (snd r) = use_ca_certs_for_token_request s
    ∧ fetched evs = [userdata_request self access_token]
    ∧ stopped evs = match fst r with
                    | Ok None => [user]
                    | _ => []
                    end.
Proof.
  intros Ht r. subst r. unfold refresh_user, mbind, M_bind, bind, lift.
  rewrite Ht.
  pose proof (lookup_shape w self access_token s) as Hshape.
  destruct (_get_openshift_user_info w self access_token s)
    as [[[ui|]|e] s1] eqn:Hrun; simpl in *.
  - rewrite bool_decide_eq_false_2
      by exact (lookup_some_nonempty _ _ _ _ _ _ Hrun).
    simpl. destruct Hshape as [->|(username & Hnone & _)]; [|discriminate].
    eexists. split; [reflexivity|]. done.
  - destruct Hshape as [->|(username & _ & ->)]; simpl;
      rewrite <- app_assoc; eexists; (split; [reflexivity|]); done.
  - destruct Hshape as [->|(username & Hnone & _)]; [|discriminate].
    eexists. split; [reflexivity|]. done.
Qed.

Lemma refresh_user_footprint_witness :
  getitem (get_auth_state Sample.alice_user) "access_token" = Ok Sample.token
  ∧ ∃ evs,
      trace (snd (refresh_user (Sample.failing_cluster 401) (Sample.hub ∅ ∅)
                    Sample.alice_user fresh)) = trace fresh ++ evs
      ∧ fetched evs = [userdata_request (Sample.hub ∅ ∅) Sample.token].
Proof.
  split; [reflexivity|].
  destruct (refresh_user_footprint (Sample.failing_cluster 401) (Sample.hub ∅ ∅)
              Sample.alice_user Sample.token fresh eq_refl)
    as (evs & Htr & _ & Hf & _).
  exists evs. split; [exact Htr|exact Hf].
Defined.

(** ** The groups list as a set *)

Lemma to_hashable_raise v e : to_hashable v = Raise e → e = TypeError.
Proof. destruct v; simpl; congruence. Qed.

Lemma set_of_list_ok l : ∀ ug,
  set_of_list l = Ok ug →
  (∀ v, v ∈ l → ∃ h, to_hashable v = Ok h)
  ∧ (∀ h, h ∈ ug ↔ ∃ v, v ∈ l ∧ to_hashable v = Ok h).
Proof.
  induction l as [|v l IH]; intros ug Hs; simpl in Hs.
  - injection Hs as <-. split.
    + intros v Hv. inversion Hv.
    + intros h. split.
      * intros Hh. exfalso. exact (not_elem_of_empty h Hh).
      * intros (v & Hv & _). inversion Hv.
  - destruct (to_hashable v) as [h0|e] eqn:Hv0; [|discriminate].
    destruct (set_of_list l) as [ug0|e] eqn:Hl; [|discriminate].
    injection Hs as <-. destruct (IH ug0 eq_refl) as [IHa IHb]. split.
    + intros v' Hv'. apply elem_of_cons in Hv'. destruct Hv' as [->|Hv'].
      * eauto.
      * apply IHa, Hv'.
    + intros h. rewrite elem_of_union, elem_of_singleton, IHb. split.
      * intros [->|(v' & Hv' & Hh)].
        -- exists v. split; [apply elem_of_cons; auto|exact Hv0].
        -- exists v'. split; [apply elem_of_cons; auto|exact Hh].
      * intros (v' & Hv' & Hh). apply elem_of_cons in Hv'.
        destruct Hv' as [->|Hv'].
        -- left. congruence.
        -- right. eauto.
Qed.

Lemma set_of_list_raise l : ∀ e,
  set_of_list l = Raise e →
  e = TypeError ∧ ∃ v, v ∈ l ∧ to_hashable v = Raise TypeError.
Proof.
  induction l as [|v l IH]; intros e Hs; simpl in Hs; [discriminate|].
  destruct (to_hashable v) as [h0|e0] eqn:Hv0.
  - destruct (set_of_list l) as [ug0|e1] eqn:Hl; [discriminate|].
    injection Hs as <-. destruct (IH e1 eq_refl) as [-> (v' & Hv' & Hh)].
    split; [reflexivity|]. exists v'. split; [apply elem_of_cons; auto|exact Hh].
  - injection Hs as <-. pose proof (to_hashable_raise _ _ Hv0) as ->.
    split; [reflexivity|]. exists v. split; [apply elem_of_cons; auto|exact Hv0].
Qed.

(** X14.  The group policy reads the user's [groups] list as a set: two user
    objects whose lists hold the same entries, in whatever order and however
    often, give the same group set, or fail alike. *)
Theorem groups_order_irrelevant username tok d l1 l2 :
  (∀ v, v ∈ l1 ↔ v ∈ l2) →
  user_groups_of (new_user_info username tok (PDict (<["groups" := PList l1]> d)))
  = user_groups_of (new_user_info username tok (PDict (<["groups" := PList l2]> d))).
Proof.
  intros Hsame. rewrite !user_groups_of_new. simpl.
  rewrite !lookup_insert_eq. simpl.
  destruct (set_of_list l1) as [ug1|e1] eqn:H1,
           (set_of_list l2) as [ug2|e2] eqn:H2.
  - f_equal. apply set_eq. intros h.
    rewrite (proj2 (set_of_list_ok _ _ H1) h), (proj2 (set_of_list_ok _ _ H2) h).
    split; intros (v & Hv & Hh); exists v; (split; [apply Hsame, Hv|exact Hh]).
  - exfalso. destruct (set_of_list_raise _ _ H2) as [_ (v & Hv & Hbad)].
    apply Hsame in Hv. destruct (proj1 (set_of_list_ok _ _ H1) v Hv) as [h Hh].
    congruence.
  - exfalso. destruct (set_of_list_raise _ _ H1) as [_ (v & Hv & Hbad)].
    apply Hsame in Hv. destruct (proj1 (set_of_list_ok _ _ H2) v Hv) as [h Hh].
    congruence.
  - destruct (set_of_list_raise _ _ H1) as [-> _].
    destruct (set_of_list_raise _ _ H2) as [-> _]. reflexivity.
Qed.

Lemma groups_order_irrelevant_witness :
  user_groups_of (new_user_info (PStr "alice") Sample.token
                    (PDict (<["groups" := PList [PStr "dev"; PStr "qa"; PStr "dev"]]>
                              ∅)))
  = user_groups_of (new_user_info (PStr "alice") Sample.token
                      (PDict (<["groups" := PList [PStr "qa"; PStr "dev"]]> ∅))).
Proof.
  apply (groups_order_irrelevant (PStr "alice") Sample.token ∅
           [PStr "dev"; PStr "qa"; PStr "dev"] [PStr "qa"; PStr "dev"]).
  intros v. rewrite !elem_of_cons. split; intros H; tauto.
Defined.

(** ** Defaults *)

(** X15.  A default CA bundle is either empty or its fixed path, and the path only
    when certificates are validated and the file exists; with validation off
    both defaults are empty.  With [ca_certs] left at its default, discovery
    checks the server certificate iff [validate_server_cert] is set, and never
    against a bundle that is not there. *)
Theorem default_ca_bundles host validate :
  let ca := _ca_certs_default host validate in
  let sys := _system_ca_certs_default host validate in
  (ca ≠ "" → validate = true ∧ path_exists host ca = true)
  ∧ (sys ≠ "" → validate = true ∧ path_exists host sys = true)
  ∧ (validate = false → ca = "" ∧ sys = "")
  ∧ verify_bool (verify_of ca validate) = validate
  ∧ (∀ p, verify_of ca validate = VerifyPath p → path_exists host p = true).
Proof.
  intros ca sys. subst ca sys. unfold _ca_certs_default, _system_ca_certs_default.
  destruct validate; simpl.
  - destruct (path_exists host "/run/secrets/kubernetes.io/serviceaccount/ca.crt")
      eqn:Hca;
      destruct (path_exists host "/etc/pki/tls/cert.pem") eqn:Hsys; simpl;
      repeat split; try done;
      try (intros p Hp; vm_compute in Hp;
           first [discriminate | injection Hp as <-; exact Hca]).
  - repeat split; try done;
      try (intros p Hp; vm_compute in Hp; discriminate).
Qed.

Lemma default_ca_bundles_witness :
  _ca_certs_default Edge.pod true
  = "/run/secrets/kubernetes.io/serviceaccount/ca.crt"
  ∧ path_exists Edge.pod (_ca_certs_default Edge.pod true) = true
  ∧ _ca_certs_default Edge.laptop true = ""
  ∧ verify_of (_ca_certs_default Edge.laptop true) true = VerifyBool true.
Proof.
  split; [reflexivity|]. split.
  - apply (proj1 (default_ca_bundles Edge.pod true)). vm_compute. discriminate.
  - split; reflexivity.
Defined.

(** X16.  The default cluster URL is never empty: it is [OPENSHIFT_URL] when that
    is set to something, and the in-cluster address when it is unset or set
    to the empty string. *)
Theorem openshift_url_default_never_empty host :
  openshift_url_default host ≠ ""
  ∧ (∀ u, environ host !! "OPENSHIFT_URL" = Some u → u ≠ "" →
       openshift_url_default host = u)
  ∧ (environ host !! "OPENSHIFT_URL" = None
     ∨ environ host !! "OPENSHIFT_URL" = Some "" →
     openshift_url_default host = in_cluster_url).
Proof.
  unfold openshift_url_default, str_or.
  destruct (environ host !! "OPENSHIFT_URL") as [u|] eqn:Hu.
  - destruct (String.eqb u "") eqn:He.
    + apply String.eqb_eq in He. subst u. split; [discriminate|].
      split; [intros u [= <-] Hne; done|done].
    + apply String.eqb_neq in He. split; [exact He|].
      split; [intros u' [= <-] _; reflexivity|].
      intros [H|[= ->]]; [discriminate|done].
  - split; [discriminate|]. split; [intros u [=]|done].
Qed.

Lemma openshift_url_default_never_empty_witness :
  environ Edge.laptop !! "OPENSHIFT_URL" = Some "https://api.example:6443"
  ∧ openshift_url_default Edge.laptop = "https://api.example:6443"
  ∧ openshift_url_default Edge.pod = in_cluster_url.
Proof.
  split; [reflexivity|]. split.
  - apply (proj1 (proj2 (openshift_url_default_never_empty Edge.laptop))
             "https://api.example:6443" eq_refl).
    discriminate.
  - apply (proj2 (proj2 (openshift_url_default_never_empty Edge.pod))).
    left. reflexivity.
Defined.

(** X17.  The default of [openshift_auth_api_url] is a string exactly when
    the well-known document under [openshift_url] is an object whose
    ['issuer'] is a string, and it is that string.  An object with no issuer,
    or with one that is not a string, ends in [TraitError]; a document that
    is no object raises [AttributeError]; a failed request raises what it
    raised. *)
Theorem discovery_outcomes (get : Discovery) openshift_url ca validate :
  let asked := get (openshift_url +:+ "/.well-known/oauth-authorization-server")
                 (verify_of ca validate) in
  let r := openshift_auth_api_url_default get openshift_url ca validate in
  (∀ issuer, r = Ok issuer
             ↔ ∃ d, asked = Ok (PDict d) ∧ d !! "issuer" = Some (PStr issuer))
  ∧ (∀ d, asked = Ok (PDict d) →
       (∀ issuer, d !! "issuer" ≠ Some (PStr issuer)) →
       r = Raise (OtherError "TraitError"))
  ∧ (∀ doc, asked = Ok doc → (∀ d, doc ≠ PDict d) →
       r = Raise (OtherError "AttributeError"))
  ∧ (∀ e, asked = Raise e → r = Raise e).
Proof.
  intros asked r. subst asked r.
  unfold openshift_auth_api_url_default, _openshift_auth_api_url_default.
  destruct (get (openshift_url +:+ "/.well-known/oauth-authorization-server")
              (verify_of ca validate)) as [doc|e0] eqn:Hget; simpl.
  - split; [|split; [|split]].
    + intros issuer. split.
      * intros Hr. destruct doc; simpl in Hr; try discriminate.
        exists d. split; [reflexivity|].
        destruct (d !! "issuer") as [v|]; simpl in Hr; [|discriminate].
        destruct v; simpl in Hr; try discriminate. congruence.
      * intros (d & [= ->] & Hi). simpl. rewrite Hi. reflexivity.
    + intros d [= ->] Hno. simpl.
      destruct (d !! "issuer") as [v|] eqn:Hi; [|reflexivity].
      destruct v; try reflexivity. exfalso. exact (Hno s eq_refl).
    + intros doc' [= <-] Hno. destruct doc; try reflexivity.
      exfalso. exact (Hno d eq_refl).
    + intros e [=].
  - split; [|split; [|split]].
    + intros issuer. split; [discriminate|]. intros (d & [=] & _).
    + intros d [=].
    + intros doc [=].
    + intros e [= <-]. reflexivity.
Qed.

Lemma discovery_outcomes_witness :
  openshift_auth_api_url_default
    (Edge.serving (PDict {["issuer" := PStr "https://oauth.apps.example"]}))
    in_cluster_url "" true = Ok "https://oauth.apps.example"
  ∧ openshift_auth_api_url_default (Edge.serving (PDict ∅))
      in_cluster_url "" true = Raise (OtherError "TraitError").
Proof.
  split.
  - apply (proj1 (discovery_outcomes
                    (Edge.serving (PDict {["issuer" := PStr "https://oauth.apps.example"]}))
                    in_cluster_url "" true)).
    exists {["issuer" := PStr "https://oauth.apps.example"]}.
    split; reflexivity.
  - apply (proj1 (proj2 (discovery_outcomes (Edge.serving (PDict ∅))
                           in_cluster_url "" true)) ∅ eq_refl).
    intros issuer H. rewrite lookup_empty in H. discriminate.
Defined.

(** ** A token the cluster does not honour *)

(** X18.  When the token exchange succeeds but the user-info endpoint answers the
    new token with an HTTP error, [authenticate] returns [None] for status
    401 and raises the error for any other status; the flag and the trace of
    the exchange stay as they were, with the one lookup request added. *)
Theorem authenticate_with_rejected_token w self handler code resp tok s s1 e :
  get_argument handler "code" = Some code →
  token_exchange w self (token_url_with self code) s = (Ok resp, s1) →
  getitem resp "access_token" = Ok tok →
  w (trace s1) (userdata_request self tok) = Raise e →
  is_HTTPError e = true →
  (exn_code e = 401%Z →
   authenticate w self handler s
   = (Ok None, after s1 [EvFetch (userdata_request self tok)]))
  ∧ (exn_code e ≠ 401%Z →
     authenticate w self handler s
     = (Raise e, after s1 [EvFetch (userdata_request self tok)])).
Proof.
  intros Hc Hx Ht Hw He.
  rewrite (authenticate_run _ _ _ _ _ Hc), Hx, Ht.
  rewrite (lookup_run_raise _ _ _ _ _ Hw), He. simpl. split.
  - intros ->. reflexivity.
  - intros Hne. apply Z.eqb_neq in Hne. rewrite Hne. reflexivity.
Qed.

Lemma authenticate_with_rejected_token_witness :
  authenticate (Sample.failing_cluster 401) (Sample.hub ∅ ∅) Sample.callback fresh
  = (Ok None,
     after fresh
       [EvFetch (token_request_with (Sample.hub ∅ ∅) true
                   (token_url_with (Sample.hub ∅ ∅) "c0de"));
        EvFetch (userdata_request (Sample.hub ∅ ∅) Sample.token)])
  ∧ fst (authenticate (Sample.failing_cluster 500) (Sample.hub ∅ ∅)
           Sample.callback fresh) = Raise (HTTPError 500).
Proof.
  split.
  - exact (proj1 (authenticate_with_rejected_token (Sample.failing_cluster 401)
                    (Sample.hub ∅ ∅) Sample.callback "c0de" Sample.token_response
                    Sample.token fresh
                    (after fresh
                       [EvFetch (token_request_with (Sample.hub ∅ ∅) true
                                   (token_url_with (Sample.hub ∅ ∅) "c0de"))])
                    (HTTPError 401) eq_refl eq_refl eq_refl eq_refl eq_refl)
             eq_refl).
  - rewrite (proj2 (authenticate_with_rejected_token (Sample.failing_cluster 500)
                      (Sample.hub ∅ ∅) Sample.callback "c0de"
                      Sample.token_response Sample.token fresh
                      (after fresh
                         [EvFetch (token_request_with (Sample.hub ∅ ∅) true
                                     (token_url_with (Sample.hub ∅ ∅) "c0de"))])
                      (HTTPError 500) eq_refl eq_refl eq_refl eq_refl eq_refl));
      [reflexivity|].
    simpl. discriminate.
Defined.
